(** * fault_inject.c: the LD_PRELOAD fault-injection layer

    A shallow embedding of [packs/fault-injection-io/snippets/fault_inject.c]
    and the properties of its dispatch engine.

    Platform model: LP64, little-endian (the Linux build of the header
    comment): [int] is 32 bits, [ssize_t] and [long] are 64 bits,
    [unsigned long] is 64 bits, [double] is IEEE-754 binary64.  Threads are
    not modelled: the mutex of [init_config] is a no-op in a sequential
    run. *)

From Stdlib Require Import ZArith String Ascii List Bool Lia DecimalString.
From Stdlib Require Import SpecFloat.
From stdpp Require Import base list.

Local Open Scope string_scope.
Local Open Scope Z_scope.

(** ** Machine integers *)

Module C.
Definition INT_MAX : Z := 2147483647.
Definition SSIZE_MAX : Z := 9223372036854775807.

(** Two's complement wrap-around of a signed [w]-bit result. *)
Definition wrap_signed (w : Z) (z : Z) : Z :=
  (z + 2 ^ (w - 1)) mod 2 ^ w - 2 ^ (w - 1).

Definition wrap_ssize (z : Z) : Z := wrap_signed 64 z.
Definition wrap_ulong (z : Z) : Z := z mod 2 ^ 64.
Definition wrap_uint (z : Z) : Z := z mod 2 ^ 32.
End C.

(** ** IEEE-754 binary64 ([double]) *)

Module Double.
Definition prec : Z := 53.
Definition emax : Z := 1024.

Definition zero : spec_float := S754_zero false.
Definition one : spec_float := S754_finite false 4503599627370496 (-52).

(** [(double) z] for an integer [z]. *)
Definition of_Z (z : Z) : spec_float := binary_normalize prec emax z 0 false.

Definition div (x y : spec_float) : spec_float := SFdiv prec emax x y.
Definition ltb (x y : spec_float) : bool := SFltb x y.
Definition leb (x y : spec_float) : bool := SFleb x y.
End Double.

(** ** Constants of the system headers (Linux values) *)

Definition EPIPE : Z := 32.
Definition ECONNRESET : Z := 104.
Definition ECONNREFUSED : Z := 111.
Definition ETIMEDOUT : Z := 110.
Definition ENETUNREACH : Z := 101.
Definition EHOSTUNREACH : Z := 113.
Definition ENOENT : Z := 2.
Definition EACCES : Z := 13.
Definition EIO : Z := 5.
Definition ENOSPC : Z := 28.
Definition EROFS : Z := 30.

Definition AF_INET : Z := 2.
Definition AF_INET6 : Z := 10.
Definition O_CREAT : Z := 64.

Definition MAX_TRACKED_FDS : Z := 4096.

(** ** Text formatting ([printf] conversions) *)

(** [%d], [%ld], [%lu], [%zu], [%zd]. *)
Definition dec (z : Z) : string := NilZero.string_of_int (Z.to_int z).

Fixpoint zeros (n : nat) : string :=
  match n with
  | O => EmptyString
  | S n' => String "0" (zeros n')
  end.

(** [%03ld]: zero padding to a width of three. *)
Definition dec03 (z : Z) : string :=
  if z <? 0 then
    let d := dec (- z) in
    ("-" ++ zeros (2 - String.length d) ++ d)%string
  else
    let d := dec z in
    (zeros (3 - String.length d) ++ d)%string.

(** The newline that ends a log line. *)
Definition nl : string := String (ascii_of_nat 10) EmptyString.

(** [snprintf(buf, size, ...)]: at most [size - 1] characters are kept. *)
Definition snprintf (size : nat) (s : string) : string :=
  String.substring 0 (size - 1) s.

(** [ntohs] on a little-endian host: the two bytes are swapped. *)
Definition ntohs (x : Z) : Z :=
  Z.lor (Z.shiftl (Z.land x 255) 8) (Z.land (Z.shiftr x 8) 255).

(** ** Data *)

(** [struct sockaddr], seen through the casts the code makes: the family,
    the 16-bit field that follows it ([sin_port] of [sockaddr_in] and
    [sin6_port] of [sockaddr_in6], as stored, in network byte order), and
    the address bytes. *)
Record sockaddr := {
  sa_family : Z;
  sin_port : Z;
  sin_addr : list Z
}.

(** A [FILE *] that is not [NULL]. *)
Definition FILE : Type := Z.

(** A call into a real implementation, with the arguments it receives. *)
Inductive syscall :=
| SysConnect (sockfd : Z) (addr : sockaddr) (addrlen : Z)
| SysSend (sockfd buf len flags : Z)
| SysRecv (sockfd buf len flags : Z)
| SysWrite (fd buf count : Z)
| SysRead (fd buf count : Z)
| SysOpen (pathname : string) (flags mode : Z)
| SysClose (fd : Z).

(** What the layer does to the outside, in program order. *)
Inductive event :=
| Nanosleep (tv_sec tv_nsec : Z)
| Fprintf (f : FILE) (line : string)
| Fclose (f : FILE)
| Real (c : syscall) (result : Z).

Inductive clockid := CLOCK_MONOTONIC | CLOCK_REALTIME.

(** The part of the process the real operations act on: [errno], the
    memory that holds the caller's buffers (a byte per address), and the
    kernel, which is everything outside the process. *)
Record process (kernel : Type) := {
  errno : Z;
  memory : Z -> Z;
  os : kernel
}.
Arguments errno {kernel} _.
Arguments memory {kernel} _.
Arguments os {kernel} _.

(** The result of an operation and the process it leaves. *)
Definition outcome (kernel : Type) : Type :=
  process kernel -> Z * process kernel.

(** The real implementations as [dlsym(RTLD_NEXT, ...)] resolves them;
    [None] is a [NULL] pointer. *)
Record reals (kernel : Type) := {
  real_connect : option (Z -> sockaddr -> Z -> outcome kernel);
  real_send : option (Z -> Z -> Z -> Z -> outcome kernel);
  real_recv : option (Z -> Z -> Z -> Z -> outcome kernel);
  real_write : option (Z -> Z -> Z -> outcome kernel);
  real_read : option (Z -> Z -> Z -> outcome kernel);
  real_open : option (string -> Z -> Z -> outcome kernel);
  real_close : option (Z -> outcome kernel)
}.
Arguments real_connect {kernel} _.
Arguments real_send {kernel} _.
Arguments real_recv {kernel} _.
Arguments real_write {kernel} _.
Arguments real_read {kernel} _.
Arguments real_open {kernel} _.
Arguments real_close {kernel} _.

(** The C library and the kernel under the layer; [rng] is the hidden
    state of [rand]. *)
Class Platform := {
  kernel : Type;
  rng : Type;
  RAND_MAX : Z;
  RAND_MAX_range : 32767 <= RAND_MAX <= C.INT_MAX;
  rand : rng -> Z * rng;
  rand_range : forall g, 0 <= fst (rand g) <= RAND_MAX;
  srand : Z -> rng;
  getenv : string -> option string;
  atof : string -> spec_float;
  atoi : string -> Z;
  getpid : Z;
  clock_gettime : clockid -> kernel -> Z * Z;
  nanosleep : Z -> Z -> process kernel -> process kernel;
  fopen : string -> string -> process kernel -> option FILE * process kernel;
  (** what a write to the stream, and its closing, leave in [errno]; the
      text written is kept in the trace *)
  fprintf : FILE -> string -> process kernel -> Z;
  fclose : FILE -> process kernel -> Z;
  inet_ntop : Z -> list Z -> string;
  (** the [%.2f] conversion *)
  printf_2f : spec_float -> string;
  (** the seven [dlsym(RTLD_NEXT, name)] *)
  dlsym : reals kernel
}.

Section Model.
Context {P : Platform}.

Definition set_errno (e : Z) (p : process kernel) : process kernel :=
  {| errno := e; memory := memory p; os := os p |}.

(** Configuration from environment. *)
Record config := {
  g_enabled : bool;
  g_connect_fail_rate : spec_float;
  g_connect_errno : Z;
  g_send_fail_rate : spec_float;
  g_send_errno : Z;
  g_recv_fail_rate : spec_float;
  g_recv_short_rate : spec_float;
  g_recv_errno : Z;
  g_open_fail_rate : spec_float;
  g_open_errno : Z;
  g_latency_ms : Z;
  g_target_port : Z;
  g_log_file : option FILE
}.

(** Statistics. *)
Record stats := {
  g_stat_connect_injected : Z;
  g_stat_send_injected : Z;
  g_stat_recv_injected : Z;
  g_stat_short_reads : Z
}.

(** The globals of the library, the random source, the process and the
    trace of what the layer has done so far. *)
Record state := {
  cfg : config;
  g_initialized : bool;
  stat : stats;
  fns : reals kernel;
  g_targeted_fds : list Z;
  rand_state : rng;
  proc : process kernel;
  trace : list event
}.

(** The statics as the C initialisers leave them, before the first call. *)
Definition initial_config : config := {|
  g_enabled := false;
  g_connect_fail_rate := Double.zero;
  g_connect_errno := ETIMEDOUT;
  g_send_fail_rate := Double.zero;
  g_send_errno := EPIPE;
  g_recv_fail_rate := Double.zero;
  g_recv_short_rate := Double.zero;
  g_recv_errno := ECONNRESET;
  g_open_fail_rate := Double.zero;
  g_open_errno := ENOENT;
  g_latency_ms := 0;
  g_target_port := 0;
  g_log_file := None
|}.

Definition initial_stats : stats := {|
  g_stat_connect_injected := 0;
  g_stat_send_injected := 0;
  g_stat_recv_injected := 0;
  g_stat_short_reads := 0
|}.

Definition null_reals : reals kernel := {|
  real_connect := None;
  real_send := None;
  real_recv := None;
  real_write := None;
  real_read := None;
  real_open := None;
  real_close := None
|}.

Definition zeroed_fds : list Z := replicate (Z.to_nat MAX_TRACKED_FDS) 0.

Definition initial_state (g : rng) (p : process kernel) : state := {|
  cfg := initial_config;
  g_initialized := false;
  stat := initial_stats;
  fns := null_reals;
  g_targeted_fds := zeroed_fds;
  rand_state := g;
  proc := p;
  trace := []
|}.

(** *** Assignments to the globals *)

Definition with_stat (x : stats) (s : state) : state :=
  {| cfg := cfg s; g_initialized := g_initialized s; stat := x;
     fns := fns s; g_targeted_fds := g_targeted_fds s;
     rand_state := rand_state s; proc := proc s; trace := trace s |}.

Definition with_fds (x : list Z) (s : state) : state :=
  {| cfg := cfg s; g_initialized := g_initialized s; stat := stat s;
     fns := fns s; g_targeted_fds := x;
     rand_state := rand_state s; proc := proc s; trace := trace s |}.

Definition with_rand (x : rng) (s : state) : state :=
  {| cfg := cfg s; g_initialized := g_initialized s; stat := stat s;
     fns := fns s; g_targeted_fds := g_targeted_fds s;
     rand_state := x; proc := proc s; trace := trace s |}.

Definition with_proc (x : process kernel) (s : state) : state :=
  {| cfg := cfg s; g_initialized := g_initialized s; stat := stat s;
     fns := fns s; g_targeted_fds := g_targeted_fds s;
     rand_state := rand_state s; proc := x; trace := trace s |}.

Definition emit (e : event) (s : state) : state :=
  {| cfg := cfg s; g_initialized := g_initialized s; stat := stat s;
     fns := fns s; g_targeted_fds := g_targeted_fds s;
     rand_state := rand_state s; proc := proc s; trace := trace s ++ [e] |}.

(** [c++] on an [unsigned long]. *)
Definition incr (c : Z) : Z := C.wrap_ulong (c + 1).

Definition incr_connect_injected (x : stats) : stats :=
  {| g_stat_connect_injected := incr (g_stat_connect_injected x);
     g_stat_send_injected := g_stat_send_injected x;
     g_stat_recv_injected := g_stat_recv_injected x;
     g_stat_short_reads := g_stat_short_reads x |}.

Definition incr_send_injected (x : stats) : stats :=
  {| g_stat_connect_injected := g_stat_connect_injected x;
     g_stat_send_injected := incr (g_stat_send_injected x);
     g_stat_recv_injected := g_stat_recv_injected x;
     g_stat_short_reads := g_stat_short_reads x |}.

Definition incr_recv_injected (x : stats) : stats :=
  {| g_stat_connect_injected := g_stat_connect_injected x;
     g_stat_send_injected := g_stat_send_injected x;
     g_stat_recv_injected := incr (g_stat_recv_injected x);
     g_stat_short_reads := g_stat_short_reads x |}.

Definition incr_short_reads (x : stats) : stats :=
  {| g_stat_connect_injected := g_stat_connect_injected x;
     g_stat_send_injected := g_stat_send_injected x;
     g_stat_recv_injected := g_stat_recv_injected x;
     g_stat_short_reads := incr (g_stat_short_reads x) |}.

(** *** The state monad of the wrappers *)

Definition M (A : Type) : Type := state -> A * state.

Definition Return {A : Type} (a : A) : M A := fun s => (a, s).

Definition Bind {A B : Type} (m : M A) (k : A -> M B) : M B :=
  fun s => let (a, s') := m s in k a s'.

Definition gets {A : Type} (f : state -> A) : M A := fun s => (f s, s).

Definition modify (f : state -> state) : M unit := fun s => (tt, f s).

Notation "x <- m ;; k" := (Bind m (fun x => k))
  (at level 100, m at next level, right associativity).
Notation "m ;; k" := (Bind m (fun _ => k))
  (at level 100, right associativity).

(** Call through a resolved function pointer: the real operation runs on
    the process, and the call and its result enter the trace. *)
Definition invoke (c : syscall) (f : outcome kernel) : M Z :=
  fun s => let (r, p') := f (proc s) in (r, emit (Real c r) (with_proc p' s)).

(** ** The code *)

(** Parse errno name to value. *)
Definition parse_errno (name : option string) : Z :=
  match name with
  | None => 0
  | Some name =>
    if String.eqb name "EPIPE" then EPIPE
    else if String.eqb name "ECONNRESET" then ECONNRESET
    else if String.eqb name "ECONNREFUSED" then ECONNREFUSED
    else if String.eqb name "ETIMEDOUT" then ETIMEDOUT
    else if String.eqb name "ENETUNREACH" then ENETUNREACH
    else if String.eqb name "EHOSTUNREACH" then EHOSTUNREACH
    else if String.eqb name "ENOENT" then ENOENT
    else if String.eqb name "EACCES" then EACCES
    else if String.eqb name "EIO" then EIO
    else if String.eqb name "ENOSPC" then ENOSPC
    else if String.eqb name "EROFS" then EROFS
    else atoi name
  end.

(** Get errno name for logging. *)
Definition errno_name (err : Z) : string :=
  if err =? EPIPE then "EPIPE"
  else if err =? ECONNRESET then "ECONNRESET"
  else if err =? ECONNREFUSED then "ECONNREFUSED"
  else if err =? ETIMEDOUT then "ETIMEDOUT"
  else if err =? ENOENT then "ENOENT"
  else if err =? EACCES then "EACCES"
  else if err =? EIO then "EIO"
  else "?".

(** [if (val) g = parse(val);] *)
Definition env_or {A : Type} (key : string) (parse : string -> A) (old : A) : A :=
  match getenv key with
  | Some val => parse val
  | None => old
  end.

(** The lines of the [[INIT]] block. *)
Definition init_lines (c : config) : list string :=
  [ ("[INIT] libfaultinject loaded (pid=" ++ dec getpid ++ ")" ++ nl)%string;
    ("[INIT] connect_fail_rate=" ++ printf_2f (g_connect_fail_rate c)
       ++ " errno=" ++ errno_name (g_connect_errno c) ++ nl)%string;
    ("[INIT] send_fail_rate=" ++ printf_2f (g_send_fail_rate c)
       ++ " errno=" ++ errno_name (g_send_errno c) ++ nl)%string;
    ("[INIT] recv_fail_rate=" ++ printf_2f (g_recv_fail_rate c)
       ++ " recv_short_rate=" ++ printf_2f (g_recv_short_rate c)
       ++ " errno=" ++ errno_name (g_recv_errno c) ++ nl)%string ]
  ++ (if g_target_port c =? 0 then []
      else [ ("[INIT] targeting port " ++ dec (g_target_port c) ++ " only" ++ nl)%string ]).

(** The process after the lines are written to the stream in turn: each
    [fprintf] may leave its own [errno]. *)
Fixpoint after_fprintf (f : FILE) (lines : list string) (p : process kernel)
    : process kernel :=
  match lines with
  | [] => p
  | line :: rest => after_fprintf f rest (set_errno (fprintf f line p) p)
  end.

(** Initialize from environment. *)
Definition init_config : M unit := fun s =>
  if g_initialized s then (tt, s) else
  let c := cfg s in
  let enabled :=
    match getenv "FAULT_INJECT_ENABLED" with
    | Some val => String.eqb val "1" || String.eqb val "true"
    | None => false
    end in
  let opened :=
    match getenv "FAULT_LOG_FILE" with
    | Some val => fopen val "a" (proc s)
    | None => (g_log_file c, proc s)
    end in
  let c' := {|
    g_enabled := enabled;
    g_connect_fail_rate := env_or "FAULT_CONNECT_FAIL_RATE" atof (g_connect_fail_rate c);
    g_connect_errno := env_or "FAULT_CONNECT_ERRNO" (fun v => parse_errno (Some v)) (g_connect_errno c);
    g_send_fail_rate := env_or "FAULT_SEND_FAIL_RATE" atof (g_send_fail_rate c);
    g_send_errno := env_or "FAULT_SEND_ERRNO" (fun v => parse_errno (Some v)) (g_send_errno c);
    g_recv_fail_rate := env_or "FAULT_RECV_FAIL_RATE" atof (g_recv_fail_rate c);
    g_recv_short_rate := env_or "FAULT_RECV_SHORT_RATE" atof (g_recv_short_rate c);
    g_recv_errno := env_or "FAULT_RECV_ERRNO" (fun v => parse_errno (Some v)) (g_recv_errno c);
    g_open_fail_rate := env_or "FAULT_OPEN_FAIL_RATE" atof (g_open_fail_rate c);
    g_open_errno := env_or "FAULT_OPEN_ERRNO" (fun v => parse_errno (Some v)) (g_open_errno c);
    g_latency_ms := env_or "FAULT_LATENCY_MS" atoi (g_latency_ms c);
    g_target_port := env_or "FAULT_TARGET_PORT" atoi (g_target_port c);
    g_log_file := fst opened
  |} in
  (* Seed random with high-resolution time *)
  let ts := clock_gettime CLOCK_MONOTONIC (os (snd opened)) in
  let seed := C.wrap_uint (Z.lxor (Z.lxor (fst ts) (snd ts)) getpid) in
  let block :=
    match g_log_file c' with
    | Some f => if g_enabled c' then map (Fprintf f) (init_lines c') else []
    | None => []
    end in
  let p' :=
    match g_log_file c' with
    | Some f => if g_enabled c' then after_fprintf f (init_lines c') (snd opened)
                else snd opened
    | None => snd opened
    end in
  (tt, {| cfg := c';
          g_initialized := true;
          stat := stat s;
          fns := dlsym;
          g_targeted_fds := zeroed_fds;
          rand_state := srand seed;
          proc := p';
          trace := trace s ++ block |}).

(** Check if should inject fault based on rate.  [rand] is called, and the
    random source advances, only for a rate that is neither [<= 0.0] nor
    [>= 1.0]. *)
Definition should_inject (rate : spec_float) : M bool := fun s =>
  if Double.leb rate Double.zero then (false, s)
  else if Double.leb Double.one rate then (true, s)
  else
    let (r, g') := rand (rand_state s) in
    (Double.ltb (Double.div (Double.of_Z r) (Double.of_Z RAND_MAX)) rate,
     with_rand g' s).

(** Log injection event.  The line enters the trace, and the [fprintf]
    on the unbuffered stream leaves its [errno] in the process. *)
Definition log_inject (func : string) (fd : Z) (detail : string) : M unit :=
  fun s =>
  match g_log_file (cfg s) with
  | None => (tt, s)
  | Some f =>
    let ts := clock_gettime CLOCK_REALTIME (os (proc s)) in
    let line := ("[" ++ dec (fst ts) ++ "."
                   ++ dec03 (Z.quot (snd ts) 1000000)
                   ++ "] INJECT " ++ func ++ " (fd=" ++ dec fd ++ ") "
                   ++ detail ++ nl)%string in
    (tt, emit (Fprintf f line)
           (with_proc (set_errno (fprintf f line (proc s)) (proc s)) s))
  end.

(** Add latency if configured. *)
Definition add_latency : M unit := fun s =>
  let ms := g_latency_ms (cfg s) in
  if ms >? 0 then
    let tv_sec := Z.quot ms 1000 in
    let tv_nsec := Z.rem ms 1000 * 1000000 in
    (tt, emit (Nanosleep tv_sec tv_nsec)
           (with_proc (nanosleep tv_sec tv_nsec (proc s)) s))
  else (tt, s).

(** Check if fd is a targeted socket. *)
Definition is_targeted_fd (fd : Z) (s : state) : Z :=
  if (fd <? 0) || (fd >=? MAX_TRACKED_FDS) then 0
  else default 0 (g_targeted_fds s !! Z.to_nat fd).

(** Mark fd as targeted. *)
Definition mark_targeted_fd (fd : Z) : M unit := fun s =>
  if (fd >=? 0) && (fd <? MAX_TRACKED_FDS)
  then (tt, with_fds (<[Z.to_nat fd := 1]> (g_targeted_fds s)) s)
  else (tt, s).

(** Unmark fd. *)
Definition unmark_targeted_fd (fd : Z) : M unit := fun s =>
  if (fd >=? 0) && (fd <? MAX_TRACKED_FDS)
  then (tt, with_fds (<[Z.to_nat fd := 0]> (g_targeted_fds s)) s)
  else (tt, s).

(** Check if address matches target port. *)
Definition matches_target (addr : sockaddr) (s : state) : bool :=
  if g_target_port (cfg s) =? 0 then true
  else if sa_family addr =? AF_INET then ntohs (sin_port addr) =? g_target_port (cfg s)
  else if sa_family addr =? AF_INET6 then ntohs (sin_port addr) =? g_target_port (cfg s)
  else false.

(** The counters and [errno = e; return -1;] of an injected failure. *)
Definition fail_with (count : stats -> stats) (e : Z) : M Z := fun s =>
  (-1, with_proc (set_errno e (proc s)) (with_stat (count (stat s)) s)).

(** [1 + (rand() % ((ret + 1) / 2))] on [ssize_t], for a draw [r]. *)
Definition short_len (ret r : Z) : Z :=
  C.wrap_ssize (1 + Z.rem r (Z.quot (C.wrap_ssize (ret + 1)) 2)).

(** The short read of [recv] and [read], once the rate has triggered:
    draw, log, count, return the short length. *)
Definition short_read (func : string) (fd ret : Z) : M Z :=
  r <- (fun s => let (r, g') := rand (rand_state s) in (r, with_rand g' s)) ;;
  let k := short_len ret r in
  log_inject func fd
    (snprintf 128 ("short read " ++ dec ret ++ " -> " ++ dec k)%string) ;;
  modify (fun s => with_stat (incr_short_reads (stat s)) s) ;;
  Return k.

(** In each wrapper the test [!g_enabled || !real_f] with its
    [real_f ? real_f(...) : -1] is written as a match on the pointer:
    [NULL] returns [-1], and a resolved pointer is called at once when
    injection is disabled. *)

(** Intercepted connect(). *)
Definition connect (sockfd : Z) (addr : sockaddr) (addrlen : Z) : M Z :=
  init_config ;;
  enabled <- gets (fun s => g_enabled (cfg s)) ;;
  real <- gets (fun s => real_connect (fns s)) ;;
  match real with
  | None => Return (-1)
  | Some real_connect =>
    if negb enabled then
      invoke (SysConnect sockfd addr addrlen) (real_connect sockfd addr addrlen)
    else
      targeted <- gets (matches_target addr) ;;
      (if targeted then mark_targeted_fd sockfd else Return tt) ;;
      add_latency ;;
      rate <- gets (fun s => g_connect_fail_rate (cfg s)) ;;
      inject <- (if targeted then should_inject rate else Return false) ;;
      if inject then
        let addr_str :=
          if sa_family addr =? AF_INET then inet_ntop AF_INET (sin_addr addr)
          else if sa_family addr =? AF_INET6 then inet_ntop AF_INET6 (sin_addr addr)
          else "?" in
        let port :=
          if sa_family addr =? AF_INET then ntohs (sin_port addr)
          else if sa_family addr =? AF_INET6 then ntohs (sin_port addr)
          else 0 in
        e <- gets (fun s => g_connect_errno (cfg s)) ;;
        log_inject "connect" sockfd
          (snprintf 256 ("-> " ++ errno_name e ++ " (addr=" ++ addr_str ++ ":"
                           ++ dec port ++ ")")%string) ;;
        fail_with incr_connect_injected e
      else
        invoke (SysConnect sockfd addr addrlen) (real_connect sockfd addr addrlen)
  end.

(** Intercepted send(). *)
Definition send (sockfd buf len flags : Z) : M Z :=
  init_config ;;
  enabled <- gets (fun s => g_enabled (cfg s)) ;;
  real <- gets (fun s => real_send (fns s)) ;;
  match real with
  | None => Return (-1)
  | Some real_send =>
    if negb enabled then
      invoke (SysSend sockfd buf len flags) (real_send sockfd buf len flags)
    else
      targeted <- gets (is_targeted_fd sockfd) ;;
      port <- gets (fun s => g_target_port (cfg s)) ;;
      if (targeted =? 0) && negb (port =? 0) then
        invoke (SysSend sockfd buf len flags) (real_send sockfd buf len flags)
      else
        add_latency ;;
        rate <- gets (fun s => g_send_fail_rate (cfg s)) ;;
        inject <- should_inject rate ;;
        if inject then
          e <- gets (fun s => g_send_errno (cfg s)) ;;
          log_inject "send" sockfd
            (snprintf 128 ("-> " ++ errno_name e ++ " (len=" ++ dec len ++ ")")%string) ;;
          fail_with incr_send_injected e
        else
          invoke (SysSend sockfd buf len flags) (real_send sockfd buf len flags)
  end.

(** Intercepted recv(). *)
Definition recv (sockfd buf len flags : Z) : M Z :=
  init_config ;;
  enabled <- gets (fun s => g_enabled (cfg s)) ;;
  real <- gets (fun s => real_recv (fns s)) ;;
  match real with
  | None => Return (-1)
  | Some real_recv =>
    if negb enabled then
      invoke (SysRecv sockfd buf len flags) (real_recv sockfd buf len flags)
    else
      targeted <- gets (is_targeted_fd sockfd) ;;
      port <- gets (fun s => g_target_port (cfg s)) ;;
      if (targeted =? 0) && negb (port =? 0) then
        invoke (SysRecv sockfd buf len flags) (real_recv sockfd buf len flags)
      else
        add_latency ;;
        fail_rate <- gets (fun s => g_recv_fail_rate (cfg s)) ;;
        inject <- should_inject fail_rate ;;
        if inject then
          e <- gets (fun s => g_recv_errno (cfg s)) ;;
          log_inject "recv" sockfd (snprintf 128 ("-> " ++ errno_name e)%string) ;;
          fail_with incr_recv_injected e
        else
          ret <- invoke (SysRecv sockfd buf len flags) (real_recv sockfd buf len flags) ;;
          (* Short read injection *)
          short_rate <- gets (fun s => g_recv_short_rate (cfg s)) ;;
          short <- (if ret >? 1 then should_inject short_rate else Return false) ;;
          if short then short_read "recv" sockfd ret
          else Return ret
  end.

(** Intercepted write() - for socket writes. *)
Definition write (fd buf count : Z) : M Z :=
  init_config ;;
  enabled <- gets (fun s => g_enabled (cfg s)) ;;
  real <- gets (fun s => real_write (fns s)) ;;
  match real with
  | None => Return (-1)
  | Some real_write =>
    if negb enabled then
      invoke (SysWrite fd buf count) (real_write fd buf count)
    else
      (* Only inject for targeted sockets (fd > 2 to skip stdin/out/err) *)
      targeted <- gets (is_targeted_fd fd) ;;
      rate <- gets (fun s => g_send_fail_rate (cfg s)) ;;
      inject <- (if (fd >? 2) && negb (targeted =? 0)
                 then should_inject rate else Return false) ;;
      if inject then
        e <- gets (fun s => g_send_errno (cfg s)) ;;
        log_inject "write" fd
          (snprintf 128 ("-> " ++ errno_name e ++ " (count=" ++ dec count ++ ")")%string) ;;
        fail_with incr_send_injected e
      else
        invoke (SysWrite fd buf count) (real_write fd buf count)
  end.

(** Intercepted read() - for socket reads. *)
Definition read (fd buf count : Z) : M Z :=
  init_config ;;
  enabled <- gets (fun s => g_enabled (cfg s)) ;;
  real <- gets (fun s => real_read (fns s)) ;;
  match real with
  | None => Return (-1)
  | Some real_read =>
    if negb enabled then
      invoke (SysRead fd buf count) (real_read fd buf count)
    else
      (* Only inject for targeted sockets *)
      targeted <- gets (is_targeted_fd fd) ;;
      fail_rate <- gets (fun s => g_recv_fail_rate (cfg s)) ;;
      inject <- (if (fd >? 2) && negb (targeted =? 0)
                 then add_latency ;; should_inject fail_rate
                 else Return false) ;;
      if inject then
        e <- gets (fun s => g_recv_errno (cfg s)) ;;
        log_inject "read" fd (snprintf 128 ("-> " ++ errno_name e)%string) ;;
        fail_with incr_recv_injected e
      else
        ret <- invoke (SysRead fd buf count) (real_read fd buf count) ;;
        (* Short read injection for sockets *)
        targeted' <- gets (is_targeted_fd fd) ;;
        short_rate <- gets (fun s => g_recv_short_rate (cfg s)) ;;
        short <- (if (fd >? 2) && negb (targeted' =? 0) && (ret >? 1)
                  then should_inject short_rate else Return false) ;;
        if short then short_read "read" fd ret
        else Return ret
  end.

(** The [mode] that [open] hands on: the variadic argument [va] is read
    only under [O_CREAT], otherwise [mode] stays [0]. *)
Definition open_mode (flags va : Z) : Z :=
  if Z.land flags O_CREAT =? 0 then 0 else va.

(** Intercepted open() - for file I/O faults.  [va] is what the variadic
    slot holds. *)
Definition open (pathname : string) (flags va : Z) : M Z :=
  init_config ;;
  let mode := open_mode flags va in
  enabled <- gets (fun s => g_enabled (cfg s)) ;;
  real <- gets (fun s => real_open (fns s)) ;;
  match real with
  | None => Return (-1)
  | Some real_open =>
    if negb enabled then
      invoke (SysOpen pathname flags mode) (real_open pathname flags mode)
    else
      rate <- gets (fun s => g_open_fail_rate (cfg s)) ;;
      inject <- should_inject rate ;;
      if inject then
        e <- gets (fun s => g_open_errno (cfg s)) ;;
        log_inject "open" (-1)
          (snprintf 256 ("-> " ++ errno_name e ++ " (path=" ++ pathname ++ ")")%string) ;;
        modify (fun s => with_proc (set_errno e (proc s)) s) ;;
        Return (-1)
      else
        invoke (SysOpen pathname flags mode) (real_open pathname flags mode)
  end.

(** Intercepted close() - cleanup tracking. *)
Definition close (fd : Z) : M Z :=
  init_config ;;
  unmark_targeted_fd fd ;;
  real <- gets (fun s => real_close (fns s)) ;;
  match real with
  | Some real_close => invoke (SysClose fd) (real_close fd)
  | None => Return (-1)
  end.

(** The [[STATS]] line. *)
Definition stats_line (x : stats) : string :=
  ("[STATS] connect_injected=" ++ dec (g_stat_connect_injected x)
   ++ " send_injected=" ++ dec (g_stat_send_injected x)
   ++ " recv_injected=" ++ dec (g_stat_recv_injected x)
   ++ " short_reads=" ++ dec (g_stat_short_reads x) ++ nl)%string.

(** Print statistics on library unload (the destructor). *)
Definition print_stats : M unit := fun s =>
  match g_log_file (cfg s) with
  | Some f =>
    if g_enabled (cfg s)
    then
      let line := stats_line (stat s) in
      let p1 := set_errno (fprintf f line (proc s)) (proc s) in
      let p2 := set_errno (fclose f p1) p1 in
      (tt, emit (Fclose f) (emit (Fprintf f line) (with_proc p2 s)))
    else (tt, s)
  | None => (tt, s)
  end.

End Model.

Local Close Scope string_scope.

(** ** Vocabulary of the properties *)

Section Vocabulary.
Context {P : Platform}.

(** A call of one of the seven intercepted operations. *)
Inductive call :=
| Connect (sockfd : Z) (addr : sockaddr) (addrlen : Z)
| Send (sockfd buf len flags : Z)
| Recv (sockfd buf len flags : Z)
| Write (fd buf count : Z)
| Read (fd buf count : Z)
| Open (pathname : string) (flags va : Z)
| Close (fd : Z).

Definition run (c : call) : M Z :=
  match c with
  | Connect sockfd addr addrlen => connect sockfd addr addrlen
  | Send sockfd buf len flags => send sockfd buf len flags
  | Recv sockfd buf len flags => recv sockfd buf len flags
  | Write fd buf count => write fd buf count
  | Read fd buf count => read fd buf count
  | Open pathname flags va => open pathname flags va
  | Close fd => close fd
  end.


(** The call of the real implementation that forwards [c]: the caller's
    arguments, except that an [open] without [O_CREAT] carries mode 0. *)
Definition forwarded (c : call) : syscall :=
  match c with
  | Connect sockfd addr addrlen => SysConnect sockfd addr addrlen
  | Send sockfd buf len flags => SysSend sockfd buf len flags
  | Recv sockfd buf len flags => SysRecv sockfd buf len flags
  | Write fd buf count => SysWrite fd buf count
  | Read fd buf count => SysRead fd buf count
  | Open pathname flags va =>
      SysOpen pathname flags (if Z.land flags O_CREAT =? 0 then 0 else va)
  | Close fd => SysClose fd
  end.

(** The real implementation of [c] applied to the forwarded arguments,
    when its pointer is resolved. *)
Definition resolved (c : call) (r : reals kernel) : option (outcome kernel) :=
  match c with
  | Connect sockfd addr addrlen =>
      option_map (fun f => f sockfd addr addrlen) (real_connect r)
  | Send sockfd buf len flags =>
      option_map (fun f => f sockfd buf len flags) (real_send r)
  | Recv sockfd buf len flags =>
      option_map (fun f => f sockfd buf len flags) (real_recv r)
  | Write fd buf count =>
      option_map (fun f => f fd buf count) (real_write r)
  | Read fd buf count =>
      option_map (fun f => f fd buf count) (real_read r)
  | Open pathname flags va =>
      option_map (fun f => f pathname flags (if Z.land flags O_CREAT =? 0 then 0 else va))
                 (real_open r)
  | Close fd =>
      option_map (fun f => f fd) (real_close r)
  end.


(** Before the first call the registry holds the zeroes of its C
    initialiser. *)
Definition registry_static (s : state) : Prop :=
  g_initialized s = false -> g_targeted_fds s = zeroed_fds.

(** The registry is the array of [MAX_TRACKED_FDS] ints. *)
Definition registry_sized (s : state) : Prop :=
  length (g_targeted_fds s) = Z.to_nat MAX_TRACKED_FDS.

(** The events that [s'] has and [s] had not. *)
Definition new_events (s s' : state) : list event :=
  drop (length (trace s)) (trace s').

Definition is_real (e : event) : bool :=
  match e with Real _ _ => true | _ => false end.

Definition is_sleep (e : event) : bool :=
  match e with Nanosleep _ _ => true | _ => false end.

Definition is_log (e : event) : bool :=
  match e with Fprintf _ _ => true | _ => false end.

(** A call that only forwards, seen from the state [s1] it starts in: the
    counters, the registry, the configuration and the random source are
    left alone, and the only event is the call of the real implementation,
    whose result and process are handed back; with a [NULL] pointer the
    result is [-1] and nothing happens. *)
Definition passthrough (c : call) (s1 : state) (out : Z * state) : Prop :=
  cfg (snd out) = cfg s1 /\
  stat (snd out) = stat s1 /\
  g_targeted_fds (snd out) = g_targeted_fds s1 /\
  rand_state (snd out) = rand_state s1 /\
  match resolved c (fns s1) with
  | Some f =>
      (fst out, proc (snd out)) = f (proc s1) /\
      trace (snd out) = trace s1 ++ [Real (forwarded c) (fst out)]
  | None =>
      fst out = -1 /\ proc (snd out) = proc s1 /\ trace (snd out) = trace s1
  end.

(** The calls of real implementations among some events. *)
Definition real_calls (evs : list event) : list event :=
  List.filter is_real evs.

(** ** Vocabulary of the further properties *)

(** Every entry of the registry is the [0] or the [1] the code stores. *)
Definition registry_binary (s : state) : Prop :=
  Forall (fun v => v = 0 \/ v = 1) (g_targeted_fds s).

(** The descriptor whose registry entry a call may assign. *)
Definition marks (c : call) : option Z :=
  match c with
  | Connect sockfd _ _ => Some sockfd
  | Close fd => Some fd
  | _ => None
  end.

(** The values of the counters a call may leave, from the counters [x]
    it starts with. *)
Definition stats_after (c : call) (x : stats) : list stats :=
  match c with
  | Connect _ _ _ => [x; incr_connect_injected x]
  | Send _ _ _ _ | Write _ _ _ => [x; incr_send_injected x]
  | Recv _ _ _ _ | Read _ _ _ => [x; incr_recv_injected x; incr_short_reads x]
  | Open _ _ _ | Close _ => [x]
  end.

(** No failure and no short read is configured. *)
Definition rates_off (c : config) : Prop :=
  Double.leb (g_connect_fail_rate c) Double.zero = true /\
  Double.leb (g_send_fail_rate c) Double.zero = true /\
  Double.leb (g_recv_fail_rate c) Double.zero = true /\
  Double.leb (g_recv_short_rate c) Double.zero = true /\
  Double.leb (g_open_fail_rate c) Double.zero = true.

(** The events other than log lines. *)
Definition not_log (e : event) : bool := negb (is_log e).

(** The state as it is without a log sink: no sink in the configuration
    and no log line in the trace. *)
Definition strip_log (s : state) : state :=
  {| cfg := {| g_enabled := g_enabled (cfg s);
               g_connect_fail_rate := g_connect_fail_rate (cfg s);
               g_connect_errno := g_connect_errno (cfg s);
               g_send_fail_rate := g_send_fail_rate (cfg s);
               g_send_errno := g_send_errno (cfg s);
               g_recv_fail_rate := g_recv_fail_rate (cfg s);
               g_recv_short_rate := g_recv_short_rate (cfg s);
               g_recv_errno := g_recv_errno (cfg s);
               g_open_fail_rate := g_open_fail_rate (cfg s);
               g_open_errno := g_open_errno (cfg s);
               g_latency_ms := g_latency_ms (cfg s);
               g_target_port := g_target_port (cfg s);
               g_log_file := None |};
     g_initialized := g_initialized s; stat := stat s; fns := fns s;
     g_targeted_fds := g_targeted_fds s; rand_state := rand_state s;
     proc := proc s; trace := List.filter not_log (trace s) |}.


(** The state with [errno] left out of a comparison. *)
Definition forget_errno (s : state) : state :=
  with_proc (set_errno 0 (proc s)) s.



End Vocabulary.

(** ** A small platform to run the model on *)

Module Demo.

(** The kernel is a clock in milliseconds; [rand] is a linear
    congruential generator. *)
Definition lcg (g : Z) : Z * Z :=
  let g' := (1103515245 * g + 12345) mod 2147483648 in (g', g').

Definition half : spec_float := S754_finite false 4503599627370496 (-53).

Definition env : Type := list (string * string).

Fixpoint lookup_env (e : env) (key : string) : option string :=
  match e with
  | [] => None
  | (k, v) :: e' => if String.eqb k key then Some v else lookup_env e' key
  end.

Definition parse_rate (v : string) : spec_float :=
  if String.eqb v "1.0" then Double.one
  else if String.eqb v "0.5" then half
  else Double.zero.

Definition parse_int (v : string) : Z :=
  match NilZero.int_of_string v with
  | Some i => Z.of_int i
  | None => 0
  end.

Definition show_rate (r : spec_float) : string :=
  if SFeqb r Double.one then "1.00"%string
  else if SFeqb r half then "0.50"%string
  else "0.00"%string.

(** Real operations: connect succeeds, send and write take everything,
    recv and read store ten bytes ['A'] at [buf], open returns
    descriptor 7, close succeeds; each call advances the clock. *)
Definition tick (p : process Z) : process Z :=
  {| errno := errno p; memory := memory p; os := os p + 1 |}.

Definition store_ten (buf : Z) (p : process Z) : process Z :=
  {| errno := errno p;
     memory := fun a => if (buf <=? a) && (a <? buf + 10) then 65 else memory p a;
     os := os p + 1 |}.

Definition recv_ten (sockfd buf len flags : Z) : outcome Z :=
  fun p => (10, store_ten buf p).

Definition read_ten (fd buf count : Z) : outcome Z :=
  fun p => (10, store_ten buf p).

Definition real_fns : reals Z := {|
  real_connect := Some (fun _ _ _ p => (0, tick p));
  real_send := Some (fun _ _ len _ p => (len, tick p));
  real_recv := Some recv_ten;
  real_write := Some (fun _ _ count p => (count, tick p));
  real_read := Some read_ten;
  real_open := Some (fun _ _ _ p => (7, tick p));
  real_close := Some (fun _ p => (0, tick p))
|}.

Definition platform (e : env) : Platform.
Proof.
  refine {|
    kernel := Z;
    rng := Z;
    RAND_MAX := 2147483647;
    rand := lcg;
    srand := fun seed => seed;
    getenv := lookup_env e;
    atof := parse_rate;
    atoi := parse_int;
    getpid := 4242;
    clock_gettime := fun _ k => (Z.quot k 1000, Z.rem k 1000 * 1000000);
    nanosleep := fun sec nsec p =>
      {| errno := errno p; memory := memory p;
         os := os p + sec * 1000 + Z.quot nsec 1000000 |};
    fopen := fun _ _ p => (Some 3, p);
    fprintf := fun _ _ p => errno p;
    fclose := fun _ p => errno p;
    inet_ntop := fun _ _ => "192.0.2.1"%string;
    printf_2f := show_rate;
    dlsym := real_fns
  |}.
  - unfold C.INT_MAX. lia.
  - intros g. unfold lcg. cbn [fst].
    pose proof (Z.mod_pos_bound (1103515245 * g + 12345) 2147483648 eq_refl).
    lia.
Defined.

(** The process before the first call. *)
Definition boot : process Z :=
  {| errno := 0; memory := fun _ => 0; os := 5000 |}.

Definition start (e : env) (seed : Z) : @state (platform e) :=
  @initial_state (platform e) seed boot.

(** Environments. *)
Definition env_log_only : env :=
  [("FAULT_LOG_FILE", "/tmp/fault.log")]%string.

Definition env_port_80 : env :=
  [("FAULT_INJECT_ENABLED", "1"); ("FAULT_CONNECT_FAIL_RATE", "1.0");
   ("FAULT_SEND_FAIL_RATE", "1.0"); ("FAULT_RECV_FAIL_RATE", "1.0");
   ("FAULT_TARGET_PORT", "80"); ("FAULT_LATENCY_MS", "250")]%string.

Definition env_short : env :=
  [("FAULT_INJECT_ENABLED", "1"); ("FAULT_RECV_SHORT_RATE", "1.0");
   ("FAULT_LOG_FILE", "/tmp/fault.log")]%string.

(** The states before the first call. *)
Definition s_log_only : @state (platform env_log_only) := start env_log_only 1.
Definition s_port_80 : @state (platform env_port_80) := start env_port_80 1.
Definition s_short : @state (platform env_short) := start env_short 1.

(** 192.0.2.1:80 (port 80 is [0x5000] once stored in network order and
    read on a little-endian host), and a UNIX-domain address. *)
Definition addr_80 : sockaddr :=
  {| sa_family := AF_INET; sin_port := 20480; sin_addr := [192; 0; 2; 1] |}.

Definition addr_unix : sockaddr :=
  {| sa_family := 1; sin_port := 29487; sin_addr := [] |}.

(** A connection on descriptor 5, with no port filter. *)
Definition s_short_connected : @state (platform env_short) :=
  snd (connect 5 addr_80 16 s_short).

(** No variable of the library is set. *)
Definition env_none : env := [].

(** A port filter that is no port, latency without any rate, and a
    failing open. *)
Definition env_port_70000 : env :=
  [("FAULT_INJECT_ENABLED", "1"); ("FAULT_CONNECT_FAIL_RATE", "1.0");
   ("FAULT_TARGET_PORT", "70000")]%string.

Definition env_latency_only : env :=
  [("FAULT_INJECT_ENABLED", "true"); ("FAULT_LATENCY_MS", "1500")]%string.

Definition env_open : env :=
  [("FAULT_INJECT_ENABLED", "1"); ("FAULT_OPEN_FAIL_RATE", "1.0");
   ("FAULT_OPEN_ERRNO", "ENOSPC")]%string.

(** The platform of a program in which [dlsym] finds nothing. *)
Definition platform_unresolved (e : env) : Platform :=
  {| kernel := Z;
     rng := Z;
     RAND_MAX := @RAND_MAX (platform e);
     RAND_MAX_range := @RAND_MAX_range (platform e);
     rand := @rand (platform e);
     rand_range := @rand_range (platform e);
     srand := @srand (platform e);
     getenv := @getenv (platform e);
     atof := @atof (platform e);
     atoi := @atoi (platform e);
     getpid := @getpid (platform e);
     clock_gettime := @clock_gettime (platform e);
     nanosleep := @nanosleep (platform e);
     fopen := @fopen (platform e);
     fprintf := @fprintf (platform e);
     fclose := @fclose (platform e);
     inet_ntop := @inet_ntop (platform e);
     printf_2f := @printf_2f (platform e);
     dlsym := {| real_connect := None; real_send := None; real_recv := None;
                 real_write := None; real_read := None; real_open := None;
                 real_close := None |} |}.

(** The platform with the log on a full disk: every write to the sink
    fails and leaves [ENOSPC]. *)
Definition platform_full_disk (e : env) : Platform :=
  {| kernel := Z;
     rng := Z;
     RAND_MAX := @RAND_MAX (platform e);
     RAND_MAX_range := @RAND_MAX_range (platform e);
     rand := @rand (platform e);
     rand_range := @rand_range (platform e);
     srand := @srand (platform e);
     getenv := @getenv (platform e);
     atof := @atof (platform e);
     atoi := @atoi (platform e);
     getpid := @getpid (platform e);
     clock_gettime := @clock_gettime (platform e);
     nanosleep := @nanosleep (platform e);
     fopen := @fopen (platform e);
     fprintf := fun _ _ _ => ENOSPC;
     fclose := @fclose (platform e);
     inet_ntop := @inet_ntop (platform e);
     printf_2f := @printf_2f (platform e);
     dlsym := @dlsym (platform e) |}.

Definition s_none : @state (platform env_none) := start env_none 1.
Definition s_port_70000 : @state (platform env_port_70000) := start env_port_70000 1.
Definition s_latency_only : @state (platform env_latency_only) := start env_latency_only 1.
Definition s_open : @state (platform env_open) := start env_open 1.

Definition s_unresolved : @state (platform_unresolved env_port_80) :=
  @initial_state (platform_unresolved env_port_80) 1 boot.

Definition s_full_disk : @state (platform_full_disk env_short) :=
  snd (@init_config (platform_full_disk env_short)
         (@initial_state (platform_full_disk env_short) 1 boot)).

(** [env_port_80] once initialised, and after the connect to port 80 on
    descriptor 5. *)
Definition s_port_80_ready : @state (platform env_port_80) :=
  snd (init_config s_port_80).

Definition s_port_80_connected : @state (platform env_port_80) :=
  snd (connect 5 addr_80 16 s_port_80).


(** 192.0.2.1:443. *)
Definition addr_443 : sockaddr :=
  {| sa_family := AF_INET; sin_port := 47873; sin_addr := [192; 0; 2; 1] |}.

End Demo.

Section Properties.
Context {P : Platform}.

(** ** Initialisation *)

Lemma init_config_done (s : state) :
  g_initialized s = true -> init_config s = (tt, s).
Proof. intros H. unfold init_config. now rewrite H. Qed.

Lemma init_config_initialized (s : state) :
  g_initialized (snd (init_config s)) = true.
Proof. unfold init_config. now destruct (g_initialized s) eqn:E. Qed.

Lemma init_config_stat (s : state) :
  stat (snd (init_config s)) = stat s.
Proof. unfold init_config. now destruct (g_initialized s). Qed.



Lemma init_config_sized (s : state) :
  registry_sized s -> registry_sized (snd (init_config s)).
Proof.
  unfold registry_sized, init_config.
  destruct (g_initialized s); [easy|]. intros _. reflexivity.
Qed.

(** In a sequential run a second [init_config] does nothing. *)
Lemma init_config_idempotent (s : state) :
  init_config (snd (init_config s)) = (tt, snd (init_config s)).
Proof. apply init_config_done, init_config_initialized. Qed.

(** ** The registry *)

Lemma unmark_not_targeted (fd : Z) (s : state) :
  is_targeted_fd fd (snd (unmark_targeted_fd fd s)) = 0.
Proof.
  unfold is_targeted_fd, unmark_targeted_fd.
  destruct (fd >=? 0) eqn:E0, (fd <? MAX_TRACKED_FDS) eqn:E1;
    cbn [andb snd]; unfold with_fds; cbn [g_targeted_fds].
  - replace (fd <? 0) with false by lia.
    replace (fd >=? MAX_TRACKED_FDS) with false by lia.
    cbn [orb].
    destruct (decide (Z.to_nat fd < length (g_targeted_fds s))%nat) as [Hlt | Hge].
    + now rewrite list_lookup_insert_eq.
    + rewrite list_insert_ge by lia.
      rewrite lookup_ge_None_2 by lia. reflexivity.
  - replace (fd >=? MAX_TRACKED_FDS) with true by lia.
    now rewrite orb_true_r.
  - replace (fd <? 0) with true by lia. reflexivity.
  - replace (fd <? 0) with true by lia. reflexivity.
Qed.

Lemma mark_targeted (fd : Z) (s : state) :
  registry_sized s ->
  0 <= fd < MAX_TRACKED_FDS ->
  is_targeted_fd fd (snd (mark_targeted_fd fd s)) = 1.
Proof.
  unfold registry_sized, is_targeted_fd, mark_targeted_fd. intros Hlen Hfd.
  replace (fd >=? 0) with true by lia.
  replace (fd <? MAX_TRACKED_FDS) with true by lia.
  replace (fd <? 0) with false by lia.
  replace (fd >=? MAX_TRACKED_FDS) with false by lia.
  cbn [andb orb snd]. unfold with_fds; cbn [g_targeted_fds].
  rewrite list_lookup_insert_eq by lia. reflexivity.
Qed.

Lemma mark_out_of_range (fd : Z) (s : state) :
  ~ 0 <= fd < MAX_TRACKED_FDS -> mark_targeted_fd fd s = (tt, s).
Proof.
  unfold mark_targeted_fd. intros H.
  destruct (fd >=? 0) eqn:E0, (fd <? MAX_TRACKED_FDS) eqn:E1;
    cbn [andb]; try reflexivity. lia.
Qed.

Lemma fd_out (fd : Z) :
  ~ 0 <= fd < MAX_TRACKED_FDS ->
  (fd <? 0) = true \/ (fd >=? MAX_TRACKED_FDS) = true.
Proof. intros H. destruct (Z.ltb_spec fd 0); [now left | right; lia]. Qed.

(** ** Passthrough when injection is disabled *)



(** ** The decision engine *)

Lemma leb_zero_not_leb_one (rate : spec_float) :
  Double.leb rate Double.zero = true -> Double.leb Double.one rate = false.
Proof.
  unfold Double.leb, Double.zero, Double.one, SFleb, SFcompare.
  destruct rate as [s | s | | s m e]; try destruct s; try reflexivity; try discriminate.
Qed.

Lemma finite_not_leb_ltb (m1 m2 : positive) (e1 e2 : Z) :
  SFleb (S754_finite false m1 e1) (S754_finite false m2 e2) = false ->
  SFltb (S754_finite false m2 e2) (S754_finite false m1 e1) = true.
Proof.
  unfold SFltb, SFleb, SFcompare.
  rewrite (Z.compare_antisym e1 e2).
  change (Pos.compare_cont Eq) with Pos.compare.
  rewrite (Pos.compare_antisym m1 m2).
  destruct (e1 ?= e2); destruct (m1 ?= m2)%positive; cbn; congruence.
Qed.

Lemma between_zero_and_one (rate : spec_float) :
  Double.leb rate Double.zero = false ->
  Double.leb Double.one rate = false ->
  rate <> S754_nan ->
  Double.ltb Double.zero rate = true /\ Double.ltb rate Double.one = true.
Proof.
  destruct rate as [s | s | | s m e]; try destruct s;
    try discriminate; try congruence.
  intros _ H _. split; [reflexivity|].
  now apply finite_not_leb_ltb.
Qed.

Lemma ltb_nan (x : spec_float) : Double.ltb x S754_nan = false.
Proof. destruct x as [s | s | | s m e]; reflexivity. Qed.

(** C5.  [should_inject] answers false for every rate [<= 0.0] and true
    for every rate [>= 1.0], whatever the state of the random source, which
    it then leaves untouched; two states can only get different answers for
    a rate strictly between 0 and 1. *)
Theorem should_inject_extremes (rate : spec_float) :
  (Double.leb rate Double.zero = true ->
   forall s, should_inject rate s = (false, s)) /\
  (Double.leb Double.one rate = true ->
   forall s, should_inject rate s = (true, s)) /\
  (forall s s',
     fst (should_inject rate s) <> fst (should_inject rate s') ->
     Double.ltb Double.zero rate = true /\ Double.ltb rate Double.one = true).
Proof.
  split; [|split].
  - intros H s. unfold should_inject. now rewrite H.
  - intros H s. unfold should_inject.
    destruct (Double.leb rate Double.zero) eqn:E.
    + apply leb_zero_not_leb_one in E. congruence.
    + now rewrite H.
  - intros s s'. unfold should_inject.
    destruct (Double.leb rate Double.zero) eqn:E0; [cbn; congruence|].
    destruct (Double.leb Double.one rate) eqn:E1; [cbn; congruence|].
    intros H. apply between_zero_and_one; auto.
    intros ->. apply H.
    destruct (rand (rand_state s)), (rand (rand_state s')); cbn.
    now rewrite !ltb_nan.
Qed.

Lemma wrap_ssize_id (z : Z) :
  - C.SSIZE_MAX - 1 <= z <= C.SSIZE_MAX -> C.wrap_ssize z = z.
Proof.
  unfold C.wrap_ssize, C.wrap_signed, C.SSIZE_MAX. intros H.
  change (2 ^ (64 - 1)) with 9223372036854775808.
  change (2 ^ 64) with 18446744073709551616.
  rewrite Z.mod_small; lia.
Qed.

Lemma wrap_ssize_max : C.wrap_ssize (C.SSIZE_MAX + 1) = - C.SSIZE_MAX - 1.
Proof. reflexivity. Qed.

(** The arithmetic of the short length: for a real length [n > 1] that an
    [ssize_t] holds and a draw of [rand], the result is in
    [[1, (n + 1) / 2]] and at most [n]. *)
Lemma short_len_bounds (n r : Z) :
  1 < n <= C.SSIZE_MAX ->
  0 <= r <= RAND_MAX ->
  1 <= short_len n r <= (n + 1) / 2 /\ short_len n r <= n.
Proof.
  intros Hn Hr. pose proof RAND_MAX_range as HR.
  unfold C.INT_MAX in HR. unfold short_len.
  assert (Hd : 1 <= (n + 1) / 2 <= n).
  { split.
    - apply Z.div_le_lower_bound; lia.
    - apply Z.div_le_upper_bound; lia. }
  destruct (Z.eq_dec n C.SSIZE_MAX) as [-> | Hne].
  - rewrite wrap_ssize_max.
    change (Z.quot (- C.SSIZE_MAX - 1) 2) with (Z.opp 4611686018427387904).
    rewrite (Z.rem_opp_r r 4611686018427387904) by lia.
    rewrite Z.rem_small by lia.
    rewrite wrap_ssize_id by (unfold C.SSIZE_MAX; lia).
    change ((C.SSIZE_MAX + 1) / 2) with 4611686018427387904.
    unfold C.SSIZE_MAX. lia.
  - rewrite (wrap_ssize_id (n + 1)) by (unfold C.SSIZE_MAX in *; lia).
    rewrite Z.quot_div_nonneg by lia.
    rewrite Z.rem_mod_nonneg by lia.
    pose proof (Z.mod_pos_bound r ((n + 1) / 2)) as Hm.
    rewrite wrap_ssize_id by (unfold C.SSIZE_MAX in *; lia).
    lia.
Qed.

(** ** The target bypass of send and recv *)

Ltac after_init s :=
  unfold connect, send, recv, write, read, open, close, Bind, gets, Return;
  destruct (init_config s) as [[] ?s1]; cbn [fst snd] in *.

(** C3.  With injection enabled, a port filter configured and the
    descriptor not marked, [send] and [recv] only forward, whatever the
    configured rates: no sleep, no draw from the random source, no log
    line, no counter change. *)
Theorem untargeted_fd_bypass (s : state) (sockfd buf len flags : Z) :
  let s1 := snd (init_config s) in
  g_enabled (cfg s1) = true ->
  g_target_port (cfg s1) <> 0 ->
  is_targeted_fd sockfd s1 = 0 ->
  passthrough (Send sockfd buf len flags) s1 (send sockfd buf len flags s) /\
  passthrough (Recv sockfd buf len flags) s1 (recv sockfd buf len flags s).
Proof.
  intros s1 Hen Hport Hfd. subst s1. unfold passthrough.
  after_init s. cbn [resolved forwarded].
  split.
  - destruct (real_send (fns s1)) as [f|]; cbn [option_map].
    + rewrite Hen. cbn. rewrite Hfd.
      replace (g_target_port (cfg s1) =? 0) with false by lia.
      cbn. unfold invoke. destruct (f sockfd buf len flags (proc s1)); cbn.
      repeat split; reflexivity.
    + cbn. repeat split; reflexivity.
  - destruct (real_recv (fns s1)) as [f|]; cbn [option_map].
    + rewrite Hen. cbn. rewrite Hfd.
      replace (g_target_port (cfg s1) =? 0) with false by lia.
      cbn. unfold invoke. destruct (f sockfd buf len flags (proc s1)); cbn.
      repeat split; reflexivity.
    + cbn. repeat split; reflexivity.
Qed.

(** ** connect and the registry *)

Lemma new_events_app (s s' : state) (evs : list event) :
  trace s' = trace s ++ evs -> new_events s s' = evs.
Proof. unfold new_events. intros ->. apply drop_app_length. Qed.

Ltac events :=
  unfold new_events;
  cbn [trace emit with_proc with_stat with_rand with_fds snd fst];
  rewrite <- ?app_assoc;
  rewrite ?drop_app_length, ?drop_all.

(** C10.  With injection enabled and a port filter configured, an address
    whose family is neither [AF_INET] nor [AF_INET6] does not match: the
    registry and the counters stay as they are, the random source is not
    consulted, so nothing is injected at any rate, nothing is logged, and
    the real connect is called (after the latency) and its result
    returned. *)
Theorem connect_other_family (s : state) (sockfd : Z) (addr : sockaddr) (addrlen : Z) :
  let s1 := snd (init_config s) in
  g_enabled (cfg s1) = true ->
  g_target_port (cfg s1) <> 0 ->
  sa_family addr <> AF_INET ->
  sa_family addr <> AF_INET6 ->
  let out := connect sockfd addr addrlen s in
  let s2 := snd (add_latency s1) in
  matches_target addr s1 = false /\
  g_targeted_fds (snd out) = g_targeted_fds s1 /\
  stat (snd out) = stat s1 /\
  rand_state (snd out) = rand_state s1 /\
  List.filter is_log (new_events s1 (snd out)) = [] /\
  match real_connect (fns s1) with
  | Some f =>
      (fst out, proc (snd out)) = f sockfd addr addrlen (proc s2) /\
      trace (snd out) = trace s2 ++ [Real (SysConnect sockfd addr addrlen) (fst out)]
  | None => out = (-1, s1)
  end.
Proof.
  intros s1 Hen Hport H4 H6 out s2. subst out s2 s1.
  assert (Hm : forall s1, g_target_port (cfg s1) <> 0 -> matches_target addr s1 = false).
  { intros s1 Hp. unfold matches_target.
    replace (g_target_port (cfg s1) =? 0) with false by lia.
    replace (sa_family addr =? AF_INET) with false by lia.
    replace (sa_family addr =? AF_INET6) with false by lia.
    reflexivity. }
  after_init s. split; [now apply Hm|].
  destruct (real_connect (fns s1)) as [f|].
  - rewrite Hen. cbn. rewrite (Hm s1 Hport). cbn.
    unfold add_latency, invoke.
    destruct (g_latency_ms (cfg s1) >? 0); cbn;
      match goal with
      | |- context [f sockfd addr addrlen ?p] => destruct (f sockfd addr addrlen p)
      end; cbn; repeat split; try reflexivity; events; reflexivity.
  - cbn. repeat split; try reflexivity. events. reflexivity.
Qed.

Lemma is_targeted_fd_ext (fd : Z) (a b : state) :
  g_targeted_fds a = g_targeted_fds b -> is_targeted_fd fd a = is_targeted_fd fd b.
Proof. unfold is_targeted_fd. now intros ->. Qed.

Ltac simp_state :=
  cbn [cfg stat fns g_targeted_fds rand_state proc trace g_initialized
       emit with_proc with_stat with_rand with_fds set_errno
       errno memory os fst snd andb] in *.

Ltac atom x :=
  lazymatch x with
  | context [if _ then _ else _] => fail
  | context [match _ with Some _ => _ | None => _ end] => fail
  | context [let (_, _) := _ in _] => fail
  | _ => idtac
  end.

(** Every test and every result a wrapper looks at, one case each,
    innermost first. *)
Ltac paths :=
  repeat (simp_state;
          match goal with
          | |- context [if ?b then _ else _] => atom b; destruct b eqn:?
          | |- context [match ?x with Some _ => _ | None => _ end] =>
              atom x; destruct x eqn:?
          | |- context [let (_, _) := ?x in _] => atom x; destruct x eqn:?
          end);
  simp_state.

Ltac primitives :=
  unfold short_read;
  unfold add_latency, should_inject, log_inject, fail_with,
    invoke, modify, Bind, Return.

Lemma close_unmarks (fd : Z) (s : state) :
  is_targeted_fd fd (snd (close fd s)) = 0.
Proof.
  after_init s.
  pose proof (unmark_not_targeted fd s1) as H.
  destruct (unmark_targeted_fd fd s1) as [[] s2]; cbn [snd] in *.
  destruct (real_close (fns s2)); [|exact H].
  unfold invoke. destruct (o fd (proc s2)). cbn [snd].
  rewrite <- H. now apply is_targeted_fd_ext.
Qed.

Lemma connect_registry (s : state) (sockfd : Z) (addr : sockaddr) (addrlen : Z) :
  let s1 := snd (init_config s) in
  g_enabled (cfg s1) = true ->
  real_connect (fns s1) <> None ->
  matches_target addr s1 = true ->
  g_targeted_fds (snd (connect sockfd addr addrlen s))
  = g_targeted_fds (snd (mark_targeted_fd sockfd s1)).
Proof.
  intros s1 Hen Hreal Hm. subst s1. after_init s.
  destruct (real_connect (fns s1)) as [f|]; [|congruence].
  rewrite Hen. cbn. rewrite Hm.
  destruct (mark_targeted_fd sockfd s1) as [[] s2]. cbn [snd].
  primitives. paths; reflexivity.
Qed.

(** C2, as the code has it.  With injection enabled, the real connect
    resolved and the address matching the filter (or no filter), connect
    leaves the registry as [mark_targeted_fd] makes it, whatever the
    injection decision and whatever the real connect returns: a descriptor
    in [[0, MAX_TRACKED_FDS)] is marked afterwards, and for one outside
    that range the registry is unchanged and the descriptor counts as not
    targeted.  After [close] the descriptor is never marked, enabled or
    not. *)
Theorem connect_marks_tracked_fd (s : state) (sockfd : Z) (addr : sockaddr) (addrlen : Z) :
  let s1 := snd (init_config s) in
  g_enabled (cfg s1) = true ->
  real_connect (fns s1) <> None ->
  matches_target addr s1 = true ->
  registry_sized s ->
  let s' := snd (connect sockfd addr addrlen s) in
  g_targeted_fds s' = g_targeted_fds (snd (mark_targeted_fd sockfd s1)) /\
  (0 <= sockfd < MAX_TRACKED_FDS -> is_targeted_fd sockfd s' = 1) /\
  (~ 0 <= sockfd < MAX_TRACKED_FDS ->
   g_targeted_fds s' = g_targeted_fds s1 /\ is_targeted_fd sockfd s' = 0) /\
  (forall fd s0, is_targeted_fd fd (snd (close fd s0)) = 0).
Proof.
  intros s1 Hen Hreal Hm Hsz s'.
  pose proof (connect_registry s sockfd addr addrlen Hen Hreal Hm) as Hreg.
  fold s1 s' in Hreg.
  split; [exact Hreg|]. split; [|split].
  - intros Hfd.
    rewrite (is_targeted_fd_ext sockfd s' _ Hreg).
    apply mark_targeted; [|exact Hfd].
    now apply init_config_sized.
  - intros Hfd. rewrite mark_out_of_range in Hreg by exact Hfd.
    split; [exact Hreg|].
    rewrite (is_targeted_fd_ext sockfd s' _ Hreg).
    unfold is_targeted_fd.
    destruct (fd_out sockfd Hfd) as [-> | ->]; [reflexivity|].
    now rewrite orb_true_r.
  - apply close_unmarks.
Qed.

(** The registry keeps its size and, once a call has run, is no longer
    in its static state: every state a run reaches meets the side
    conditions of the theorems. *)
Lemma run_registry_sized (c : call) (s : state) :
  registry_sized s -> registry_sized (snd (run c s)).
Proof.
  intros H. apply init_config_sized in H. revert H.
  unfold registry_sized.
  destruct c; cbn [run]; after_init s; intros H;
    unfold mark_targeted_fd, unmark_targeted_fd; primitives; paths;
    rewrite ?length_insert; exact H.
Qed.

Lemma run_registry_static (c : call) (s : state) :
  registry_static (snd (run c s)).
Proof.
  unfold registry_static.
  pose proof (init_config_initialized s) as H. revert H.
  destruct c; cbn [run]; after_init s; intros H;
    unfold mark_targeted_fd, unmark_targeted_fd; primitives; paths;
    congruence.
Qed.

(** Once initialised, the configuration and the resolved pointers are
    never assigned again by any of the seven operations. *)
Lemma run_keeps_config (c : call) (s : state) :
  g_initialized s = true ->
  cfg (snd (run c s)) = cfg s /\ fns (snd (run c s)) = fns s.
Proof.
  intros Hi. pose proof (init_config_done s Hi) as Hd. revert Hd.
  destruct c; cbn [run]; after_init s; intros [= <-];
    unfold mark_targeted_fd, unmark_targeted_fd; primitives; paths;
    split; reflexivity.
Qed.

Lemma initial_state_registry (g : rng) (p : process kernel) :
  registry_static (initial_state g p) /\ registry_sized (initial_state g p).
Proof. split; [intros _|]; reflexivity. Qed.

(** ** recv and read *)

Lemma not_bypassed (targeted port : Z) :
  targeted <> 0 \/ port = 0 -> (targeted =? 0) && negb (port =? 0) = false.
Proof.
  intros [H | ->].
  - replace (targeted =? 0) with false by lia. reflexivity.
  - now rewrite andb_false_r.
Qed.

(** C4.  A recv that is not bypassed (injection enabled, real recv
    resolved, descriptor marked or no port filter) takes its decisions in
    sequence.  First the recv-fail-rate decision, after the latency: if it
    triggers, no real call is made, the result is [-1] with [errno] set to
    the configured code, and no further decision is drawn.  Otherwise the
    real recv is called once, and only for a returned length [n > 1] the
    short-read-rate decision follows: triggered, it reports the short
    length of [n]; not triggered, or with [n <= 1] and no decision at all,
    [n] is returned.  In every case at most one real call is made. *)
Theorem recv_two_decisions (s : state) (sockfd buf len flags : Z)
    (f : Z -> Z -> Z -> Z -> outcome kernel) :
  let s1 := snd (init_config s) in
  g_enabled (cfg s1) = true ->
  real_recv (fns s1) = Some f ->
  is_targeted_fd sockfd s1 <> 0 \/ g_target_port (cfg s1) = 0 ->
  let s2 := snd (add_latency s1) in
  let d1 := should_inject (g_recv_fail_rate (cfg s1)) s2 in
  let out := recv sockfd buf len flags s in
  let calls := real_calls (new_events s1 (snd out)) in
  (length calls <= 1)%nat /\
  if fst d1 then
    calls = [] /\
    fst out = -1 /\
    errno (proc (snd out)) = g_recv_errno (cfg s1) /\
    stat (snd out) = incr_recv_injected (stat s1) /\
    rand_state (snd out) = rand_state (snd d1)
  else
    let called := invoke (SysRecv sockfd buf len flags) (f sockfd buf len flags) (snd d1) in
    let n := fst called in
    calls = [Real (SysRecv sockfd buf len flags) n] /\
    if n >? 1 then
      let d2 := should_inject (g_recv_short_rate (cfg s1)) (snd called) in
      if fst d2 then
        fst out = short_len n (fst (rand (rand_state (snd d2)))) /\
        stat (snd out) = incr_short_reads (stat s1)
      else out = (n, snd d2)
    else out = (n, snd called).
Proof.
  intros s1 Hen Hreal Hgate s2 d1 out calls.
  subst calls out d1 s2 s1. after_init s.
  rewrite Hreal, Hen. cbn [negb].
  rewrite (not_bypassed _ _ Hgate).
  primitives. unfold real_calls.
  paths; events; cbn; repeat split; try reflexivity; try lia.
Qed.

Lemma incr_changes (c : Z) : incr c <> c.
Proof.
  unfold incr, C.wrap_ulong.
  change (2 ^ 64) with 18446744073709551616.
  intros H.
  pose proof (Z.mod_pos_bound (c + 1) 18446744073709551616 eq_refl) as Hb.
  destruct (Z.eq_dec (c + 1) 18446744073709551616) as [E | E].
  - rewrite E, Z.mod_same in H by lia. lia.
  - rewrite Z.mod_small in H by lia. lia.
Qed.

Lemma drawn_short_len (n : Z) (g : rng) :
  1 < n ->
  n <= C.SSIZE_MAX ->
  1 <= short_len n (fst (rand g)) <= (n + 1) / 2 /\ short_len n (fst (rand g)) <= n.
Proof.
  intros H1 H2. apply short_len_bounds; [lia|]. apply rand_range.
Qed.

Ltac short_case :=
  repeat match goal with
         | H : _ && _ = true |- _ => apply andb_prop in H; destruct H
         end;
  lazymatch goal with
  | H : (?n >? 1) = true |- _ =>
      exists n; split;
      [ events; cbn; tauto
      | split; [lia|];
        intros Hmax;
        match goal with
        | Hr : rand ?g = (?r, _) |- _ =>
            replace r with (fst (rand g)) by (now rewrite Hr)
        end;
        apply drawn_short_len; [lia | exact Hmax] ]
  end.

(** C6.  Whenever recv or read counts a short read, the real call of that
    invocation returned some [n > 1], and the length reported instead is
    at least 1, at most [(n + 1) / 2] and at most [n], for every state of
    the random source ([n] being a value an [ssize_t] holds). *)
Theorem short_read_length_range (s : state) :
  let s1 := snd (init_config s) in
  (forall sockfd buf len flags,
     let out := recv sockfd buf len flags s in
     g_stat_short_reads (stat (snd out)) <> g_stat_short_reads (stat s1) ->
     exists n,
       In (Real (SysRecv sockfd buf len flags) n) (new_events s1 (snd out)) /\
       1 < n /\
       (n <= C.SSIZE_MAX ->
        1 <= fst out <= (n + 1) / 2 /\ fst out <= n)) /\
  (forall fd buf count,
     let out := read fd buf count s in
     g_stat_short_reads (stat (snd out)) <> g_stat_short_reads (stat s1) ->
     exists n,
       In (Real (SysRead fd buf count) n) (new_events s1 (snd out)) /\
       1 < n /\
       (n <= C.SSIZE_MAX ->
        1 <= fst out <= (n + 1) / 2 /\ fst out <= n)).
Proof.
  intros s1. subst s1. split; intros; subst out; revert H.
  - after_init s. primitives. paths; intros Hc;
      try (exfalso; apply Hc; reflexivity).
    all: short_case.
  - after_init s. primitives. paths; intros Hc;
      try (exfalso; apply Hc; reflexivity).
    all: short_case.
Qed.

(** C7.  Whenever recv or read counts a short read, the real operation
    was called with the caller's buffer and length (after the latency),
    and the memory is returned exactly as that call left it: nothing the
    wrapper does afterwards (the draw, the log line, the counter) writes a
    byte, so all the bytes the real operation stored in the buffer, those
    beyond the reported length too, are as the real operation wrote them.
    Only the returned length differs (and [errno], when the log write
    leaves one). *)
Theorem short_read_keeps_buffer (s : state) :
  let s1 := snd (init_config s) in
  (forall sockfd buf len flags f,
     real_recv (fns s1) = Some f ->
     let out := recv sockfd buf len flags s in
     let real := f sockfd buf len flags (proc (snd (add_latency s1))) in
     g_stat_short_reads (stat (snd out)) <> g_stat_short_reads (stat s1) ->
     In (Real (SysRecv sockfd buf len flags) (fst real)) (new_events s1 (snd out)) /\
     memory (proc (snd out)) = memory (snd real) /\
     (forall a, buf <= a < buf + fst real ->
                memory (proc (snd out)) a = memory (snd real) a)) /\
  (forall fd buf count f,
     real_read (fns s1) = Some f ->
     let out := read fd buf count s in
     let real := f fd buf count (proc (snd (add_latency s1))) in
     g_stat_short_reads (stat (snd out)) <> g_stat_short_reads (stat s1) ->
     In (Real (SysRead fd buf count) (fst real)) (new_events s1 (snd out)) /\
     memory (proc (snd out)) = memory (snd real) /\
     (forall a, buf <= a < buf + fst real ->
                memory (proc (snd out)) a = memory (snd real) a)).
Proof.
  intros s1. subst s1. split; intros until f; intros Hreal out real;
    subst out real.
  - after_init s. rewrite Hreal. primitives. paths; intros Hc;
      try (exfalso; apply Hc; reflexivity).
    all: split; [events; cbn; tauto | split; [reflexivity | intros; reflexivity]].
  - after_init s. rewrite Hreal. unfold is_targeted_fd. primitives.
    paths; intros Hc; try (exfalso; apply Hc; reflexivity).
    all: try match goal with
             | H1 : ?b = false, H2 : ?b && _ = true |- _ =>
                 rewrite H1 in H2; discriminate
             end.
    all: split; [events; cbn; tauto | split; [reflexivity | intros; reflexivity]].
Qed.

(** ** Teardown *)

(** C8, as the code has it.  With the log sink open, [print_stats] writes
    the one [[STATS]] line with the four counters and then closes the sink
    when the enabled flag is set; when the flag is clear it writes nothing
    and leaves the sink open. *)
Theorem print_stats_when_enabled (s : state) (f : FILE) :
  g_log_file (cfg s) = Some f ->
  (g_enabled (cfg s) = true ->
   new_events s (snd (print_stats s))
   = [Fprintf f (stats_line (stat s)); Fclose f]) /\
  (g_enabled (cfg s) = false -> print_stats s = (tt, s)).
Proof.
  intros Hlog. unfold print_stats. rewrite Hlog. split; intros ->.
  - events. reflexivity.
  - reflexivity.
Qed.

Lemma print_stats_without_log (s : state) :
  g_log_file (cfg s) = None -> print_stats s = (tt, s).
Proof. intros H. unfold print_stats. now rewrite H. Qed.

(** ** Error names *)

(** X1.  The two tables agree where they overlap: a code that
    [errno_name] can name parses back to itself, so what the log prints
    for a configured code can be fed back as a setting; and the four names
    that only [parse_errno] knows are logged as a question mark. *)
Theorem errno_name_parses_back (err : Z) :
  (errno_name err <> "?"%string -> parse_errno (Some (errno_name err)) = err) /\
  Forall (fun name => errno_name (parse_errno (Some name)) = "?"%string)
         ["ENETUNREACH"; "EHOSTUNREACH"; "ENOSPC"; "EROFS"]%string.
Proof.
  split.
  - unfold errno_name.
    destruct (err =? EPIPE) eqn:E1; [intros _; apply Z.eqb_eq in E1; now subst|].
    destruct (err =? ECONNRESET) eqn:E2; [intros _; apply Z.eqb_eq in E2; now subst|].
    destruct (err =? ECONNREFUSED) eqn:E3; [intros _; apply Z.eqb_eq in E3; now subst|].
    destruct (err =? ETIMEDOUT) eqn:E4; [intros _; apply Z.eqb_eq in E4; now subst|].
    destruct (err =? ENOENT) eqn:E5; [intros _; apply Z.eqb_eq in E5; now subst|].
    destruct (err =? EACCES) eqn:E6; [intros _; apply Z.eqb_eq in E6; now subst|].
    destruct (err =? EIO) eqn:E7; [intros _; apply Z.eqb_eq in E7; now subst|].
    congruence.
  - repeat constructor.
Qed.

(** ** The port filter *)

Lemma low_high_disjoint (a b : Z) :
  Z.land (a * 2 ^ 8) (b mod 2 ^ 8) = 0.
Proof.
  apply Z.bits_inj'. intros n Hn.
  rewrite Z.land_spec, Z.bits_0.
  destruct (Z.lt_ge_cases n 8) as [Hlt | Hge].
  - rewrite Z.mul_pow2_bits_low by lia. reflexivity.
  - rewrite Z.mod_pow2_bits_high by lia. apply andb_false_r.
Qed.

Lemma ntohs_sum (x : Z) :
  ntohs x = (x mod 256) * 256 + (x / 256) mod 256.
Proof.
  unfold ntohs.
  change 255 with (Z.ones 8).
  rewrite !Z.land_ones by lia.
  rewrite Z.shiftl_mul_pow2, Z.shiftr_div_pow2 by lia.
  rewrite <- Z.lxor_lor by apply low_high_disjoint.
  rewrite <- Z.add_nocarry_lxor by apply low_high_disjoint.
  reflexivity.
Qed.

Lemma ntohs_range (x : Z) : 0 <= ntohs x <= 65535.
Proof.
  rewrite ntohs_sum.
  pose proof (Z.mod_pos_bound x 256 eq_refl).
  pose proof (Z.mod_pos_bound (x / 256) 256 eq_refl).
  lia.
Qed.

(** X2.  A port filter that no 16-bit port can equal (negative, or above
    65535, as [atoi] may well return) matches no address at all, of any
    family: with such a setting connect marks and injects nothing. *)
Theorem port_filter_out_of_range (s : state) (addr : sockaddr) :
  g_target_port (cfg s) < 0 \/ 65535 < g_target_port (cfg s) ->
  matches_target addr s = false.
Proof.
  intros H. unfold matches_target.
  pose proof (ntohs_range (sin_port addr)) as Hr.
  replace (g_target_port (cfg s) =? 0) with false by lia.
  replace (ntohs (sin_port addr) =? g_target_port (cfg s)) with false by lia.
  destruct (sa_family addr =? AF_INET), (sa_family addr =? AF_INET6); reflexivity.
Qed.

(** ** Latency *)

(** X3.  For a positive latency of [ms] milliseconds (an [int]),
    [add_latency] sleeps once, with a well-formed [timespec] that amounts
    to exactly [ms]: seconds not negative, nanoseconds in
    [[0, 999999999]] and a multiple of a millisecond.  A zero or negative
    setting does nothing at all. *)
Theorem add_latency_timespec (s : state) :
  let ms := g_latency_ms (cfg s) in
  (ms <= 0 -> add_latency s = (tt, s)) /\
  (0 < ms ->
   exists tv_sec tv_nsec,
     new_events s (snd (add_latency s)) = [Nanosleep tv_sec tv_nsec] /\
     0 <= tv_sec /\ 0 <= tv_nsec <= 999000000 /\
     tv_sec * 1000 * 1000000 + tv_nsec = ms * 1000000).
Proof.
  intros ms. subst ms. unfold add_latency. split; intros H.
  - replace (g_latency_ms (cfg s) >? 0) with false by lia. reflexivity.
  - replace (g_latency_ms (cfg s) >? 0) with true by lia.
    eexists _, _. split; [events; reflexivity|].
    set (ms := g_latency_ms (cfg s)) in *.
    rewrite Z.quot_div_nonneg, Z.rem_mod_nonneg by lia.
    pose proof (Z.mod_pos_bound ms 1000 eq_refl).
    pose proof (Z.div_mod ms 1000).
    pose proof (Z.div_pos ms 1000).
    lia.
Qed.

(** ** Reading the environment *)

(** X4.  On the first call with none of the variables set, [init_config]
    keeps every default (disabled, all rates zero, the four default error
    codes, no latency, no port filter, no log sink), emits nothing, and
    leaves the counters and the zeroed registry alone. *)
Theorem init_config_defaults (g : rng) (p : process kernel) :
  (forall key, getenv key = None) ->
  let s1 := snd (init_config (initial_state g p)) in
  cfg s1 = initial_config /\
  g_initialized s1 = true /\
  fns s1 = dlsym /\
  stat s1 = initial_stats /\
  g_targeted_fds s1 = zeroed_fds /\
  errno (proc s1) = errno p /\ memory (proc s1) = memory p /\ os (proc s1) = os p /\
  trace s1 = [].
Proof.
  intros Henv s1. subst s1. unfold init_config, env_or.
  cbn [g_initialized initial_state].
  rewrite !Henv. cbn. repeat split; reflexivity.
Qed.

(** X5.  Injection is switched on by exactly two spellings: after the
    first [init_config] the enabled flag is set if and only if
    [FAULT_INJECT_ENABLED] is ["1"] or ["true"]. *)
Theorem enabled_spellings (s : state) :
  g_initialized s = false ->
  (g_enabled (cfg (snd (init_config s))) = true <->
   getenv "FAULT_INJECT_ENABLED" = Some "1"%string \/
   getenv "FAULT_INJECT_ENABLED" = Some "true"%string).
Proof.
  intros Hi. unfold init_config. rewrite Hi. cbn [snd cfg g_enabled].
  destruct (getenv "FAULT_INJECT_ENABLED") as [val|].
  - rewrite orb_true_iff, !String.eqb_eq.
    split; (intros [H | H]; [left | right]; congruence).
  - split; [discriminate | intros [H | H]; discriminate].
Qed.

(** X6.  The start-up block: the first [init_config] writes to the log
    only when injection is enabled and the sink could be opened, and then
    it writes four lines, or five when a port filter is set, all to that
    sink; otherwise it writes nothing. *)
Theorem init_block_lines (s : state) :
  g_initialized s = false ->
  let s1 := snd (init_config s) in
  let block := new_events s s1 in
  match g_log_file (cfg s1) with
  | Some f =>
      if g_enabled (cfg s1)
      then block = map (Fprintf f) (init_lines (cfg s1)) /\
           length block = if g_target_port (cfg s1) =? 0 then 4%nat else 5%nat
      else block = []
  | None => block = []
  end.
Proof.
  intros Hi s1 block. subst block s1.
  unfold init_config. rewrite Hi. cbn [snd cfg trace g_log_file g_enabled].
  match goal with
  | |- context [fst ?o] => destruct (fst o) as [f|]
  end.
  - match goal with
    | |- context [if ?b then _ else _] => destruct b
    end.
    + split; [events; reflexivity|].
      events. rewrite length_map. unfold init_lines.
      cbn [g_target_port].
      match goal with
      | |- context [if ?b then _ else _] => destruct b
      end; reflexivity.
    + events. reflexivity.
  - events. reflexivity.
Qed.

(** ** All seven operations *)

Ltac each_call c s :=
  destruct c; cbn [run forwarded resolved marks stats_after option_map];
  after_init s; unfold open_mode.

Ltac wrappers := unfold mark_targeted_fd, unmark_targeted_fd; primitives.

(** Every call starts from the initialised state: running from [s] is
    running from what [init_config] makes of [s]. *)
Lemma run_from_initialised (c : call) (s : state) :
  run c s = run c (snd (init_config s)).
Proof.
  destruct c; cbn [run];
    unfold connect, send, recv, write, read, open, close, Bind;
    rewrite init_config_idempotent; destruct (init_config s) as [[] s1];
    reflexivity.
Qed.

Lemma run_config (c : call) (s : state) :
  cfg (snd (run c s)) = cfg (snd (init_config s)) /\
  fns (snd (run c s)) = fns (snd (init_config s)) /\
  g_initialized (snd (run c s)) = true.
Proof.
  rewrite run_from_initialised.
  pose proof (init_config_initialized s) as Hi.
  destruct (run_keeps_config c _ Hi) as [H1 H2].
  repeat split; try assumption.
  pose proof (run_registry_static c (snd (init_config s))) as Hs.
  destruct (g_initialized (snd (run c (snd (init_config s))))) eqn:E; [reflexivity|].
  exfalso. revert E. clear Hs H1 H2. revert Hi.
  generalize (snd (init_config s)). intros s1 Hi.
  pose proof (init_config_done s1 Hi) as Hd. revert Hd.
  each_call c s1; intros [= <-]; wrappers; paths; congruence.
Qed.


(** X7.  A pointer that [dlsym] could not resolve: whether injection is
    enabled or not, the call returns [-1] at once and does nothing else:
    no sleep, no decision, no log line, no counter, and [errno] keeps its
    old value; only [close] still unmarks its descriptor. *)
Theorem unresolved_returns_minus_one (c : call) (s : state) :
  let s1 := snd (init_config s) in
  resolved c (fns s1) = None ->
  run c s = (-1, match c with
                 | Close fd => snd (unmark_targeted_fd fd s1)
                 | _ => s1
                 end).
Proof.
  intros s1. subst s1. each_call c s; intros H.
  1-6: match goal with
       | H : option_map _ ?p = None |- _ =>
           destruct p; [discriminate | reflexivity]
       end.
  assert (Hf : fns (snd (unmark_targeted_fd fd s1)) = fns s1).
  { unfold unmark_targeted_fd.
    destruct ((fd >=? 0) && (fd <? MAX_TRACKED_FDS)); reflexivity. }
  destruct (unmark_targeted_fd fd s1) as [[] s2]. cbn [snd] in *.
  rewrite Hf. destruct (real_close (fns s1)); [discriminate | reflexivity].
Qed.

(** X8.  No operation calls a real implementation twice, and none calls
    another operation's: the real calls of one invocation are either none,
    or the single call of its own real implementation with the forwarded
    arguments. *)
Theorem at_most_one_real_call (c : call) (s : state) :
  let calls := real_calls (new_events (snd (init_config s)) (snd (run c s))) in
  calls = [] \/ exists r, calls = [Real (forwarded c) r].
Proof.
  intros calls. subst calls. unfold real_calls.
  each_call c s; wrappers; paths; events; cbn;
    solve [ now left | right; eexists; reflexivity ].
Qed.

(** X9.  An injected failure never reaches the real implementation:
    whenever a call counts a connect, send or recv injection, it returns
    [-1], has made no real call, and has set [errno] to the code
    configured for that counter. *)
Theorem injected_failure_skips_real (c : call) (s : state) :
  let s1 := snd (init_config s) in
  let out := run c s in
  let failed (e : Z) :=
    fst out = -1 /\
    real_calls (new_events s1 (snd out)) = [] /\
    errno (proc (snd out)) = e in
  (g_stat_connect_injected (stat (snd out)) <> g_stat_connect_injected (stat s1) ->
   failed (g_connect_errno (cfg s1))) /\
  (g_stat_send_injected (stat (snd out)) <> g_stat_send_injected (stat s1) ->
   failed (g_send_errno (cfg s1))) /\
  (g_stat_recv_injected (stat (snd out)) <> g_stat_recv_injected (stat s1) ->
   failed (g_recv_errno (cfg s1))).
Proof.
  intros s1 out failed. subst failed out s1. unfold real_calls.
  each_call c s; wrappers; paths;
    (split; [|split]); intros Hc;
    try (exfalso; apply Hc; reflexivity);
    (split; [reflexivity | split; [events; reflexivity | reflexivity]]).
Qed.

(** X10.  Which counters an operation can touch: a call leaves the
    counters as they were or adds one to a single counter of its own kind
    (connect: connect injections; send and write: send injections; recv
    and read: recv injections or short reads).  [open] and [close] never
    change a counter, so injected open failures do not show in the
    statistics. *)
Theorem counters_by_operation (c : call) (s : state) :
  In (stat (snd (run c s))) (stats_after c (stat s)).
Proof.
  rewrite <- (init_config_stat s).
  each_call c s; wrappers; paths; cbn; tauto.
Qed.

(** X11.  The gate of write and read: with injection enabled, a write or
    read on a standard stream (descriptor at most 2) or on a descriptor
    that is not marked only forwards, at any rate and without latency,
    also when no port filter is configured. *)
Theorem write_read_gate (s : state) (fd buf count : Z) :
  let s1 := snd (init_config s) in
  g_enabled (cfg s1) = true ->
  fd <= 2 \/ is_targeted_fd fd s1 = 0 ->
  passthrough (Write fd buf count) s1 (write fd buf count s) /\
  passthrough (Read fd buf count) s1 (read fd buf count s).
Proof.
  intros s1 Hen Hgate. subst s1. unfold passthrough.
  assert (Hg : forall s1 v, v = is_targeted_fd fd s1 ->
                 fd <= 2 \/ v = 0 -> (fd >? 2) && negb (v =? 0) = false).
  { intros s1 v _ [H | ->].
    - replace (fd >? 2) with false by lia. reflexivity.
    - apply andb_false_r. }
  after_init s. cbn [resolved forwarded].
  pose proof (Hg s1 _ eq_refl Hgate) as Hf.
  split.
  - destruct (real_write (fns s1)) as [f|]; cbn [option_map].
    + rewrite Hen. cbn. rewrite Hf. cbn.
      unfold invoke. destruct (f fd buf count (proc s1)); cbn.
      repeat split; reflexivity.
    + cbn. repeat split; reflexivity.
  - destruct (real_read (fns s1)) as [f|]; cbn [option_map].
    + rewrite Hen. cbn. rewrite Hf. cbn.
      unfold invoke. destruct (f fd buf count (proc s1)) eqn:Ef; cbn.
      assert (Ht : is_targeted_fd fd (emit (Real (SysRead fd buf count) z) (with_proc p s1))
                   = is_targeted_fd fd s1) by reflexivity.
      rewrite Ht, Hf. cbn. repeat split; reflexivity.
    + cbn. repeat split; reflexivity.
Qed.

(** X12.  The latency is never applied by write, open or close: none of
    them sleeps, in any state. *)
Theorem no_latency_in_write_open_close (s : state) :
  let s1 := snd (init_config s) in
  (forall fd buf count,
     List.filter is_sleep (new_events s1 (snd (write fd buf count s))) = []) /\
  (forall pathname flags va,
     List.filter is_sleep (new_events s1 (snd (open pathname flags va s))) = []) /\
  (forall fd,
     List.filter is_sleep (new_events s1 (snd (close fd s))) = []).
Proof.
  intros s1. subst s1. split; [|split]; intros;
    after_init s; wrappers; paths; events; reflexivity.
Qed.

(** X13.  With every rate at zero (or below), enabling the layer only
    adds the latency: no call counts anything, consults the random source
    or writes a log line, and each call whose real implementation is
    resolved calls it once and returns its result and its process. *)
Theorem zero_rates_never_inject (c : call) (s : state) :
  let s1 := snd (init_config s) in
  rates_off (cfg s1) ->
  let out := run c s in
  stat (snd out) = stat s1 /\
  rand_state (snd out) = rand_state s1 /\
  List.filter is_log (new_events s1 (snd out)) = [] /\
  forall f, resolved c (fns s1) = Some f ->
    real_calls (new_events s1 (snd out)) = [Real (forwarded c) (fst out)] /\
    ((fst out, proc (snd out)) = f (proc s1) \/
     (fst out, proc (snd out)) = f (proc (snd (add_latency s1)))).
Proof.
  intros s1 (R1 & R2 & R3 & R4 & R5) out. subst out s1. unfold real_calls.
  each_call c s; wrappers;
    rewrite ?R1, ?R2, ?R3, ?R4, ?R5; paths;
    repeat match goal with
           | H : context [Double.leb _ Double.zero] |- _ =>
               rewrite ?R1, ?R2, ?R3, ?R4, ?R5 in H
           end;
    try discriminate;
    (split; [reflexivity | split; [reflexivity | split; [events; reflexivity|]]]);
    intros f0 [= <-];
    (split; [events; reflexivity
            | first [left; symmetry; eassumption | right; symmetry; eassumption]]).
Qed.

(** ** The registry under all operations *)

(** What a call does to the registry: nothing, or one assignment of [0]
    or [1] to the entry of its own descriptor, inside the array. *)
Lemma run_registry_shape (c : call) (s : state) :
  let l := g_targeted_fds (snd (init_config s)) in
  let l' := g_targeted_fds (snd (run c s)) in
  l' = l \/
  exists fd v, marks c = Some fd /\ 0 <= fd < MAX_TRACKED_FDS /\
               (v = 0 \/ v = 1) /\ l' = <[Z.to_nat fd := v]> l.
Proof.
  intros l l'. subst l l'.
  each_call c s; wrappers; paths;
    solve [ now left
          | right; eexists _, _;
            split; [reflexivity | split; [lia | split; [|reflexivity]]];
            auto ].
Qed.

(** X14.  The registry entries are independent: a connect or a close
    changes at most the entry of its own descriptor, and send, recv,
    write, read and open change none; every other descriptor is targeted
    after the call exactly if it was before. *)
Theorem registry_isolation (c : call) (s : state) (fd' : Z) :
  marks c <> Some fd' ->
  is_targeted_fd fd' (snd (run c s)) = is_targeted_fd fd' (snd (init_config s)).
Proof.
  intros Hother. unfold is_targeted_fd.
  destruct (run_registry_shape c s) as [-> | (fd & v & Hm & Hfd & _ & ->)];
    [reflexivity|].
  destruct ((fd' <? 0) || (fd' >=? MAX_TRACKED_FDS)) eqn:E; [reflexivity|].
  rewrite list_lookup_insert_ne; [reflexivity|].
  intros Heq. apply Z2Nat.inj in Heq; [congruence | lia | lia].
Qed.

(** X15.  The registry stays an array of [MAX_TRACKED_FDS] entries that
    are each 0 or 1, whatever is called, so [is_targeted_fd] only ever
    answers 0 or 1. *)
Theorem registry_invariant (c : call) (s : state) :
  registry_sized s ->
  registry_binary s ->
  registry_sized (snd (run c s)) /\
  registry_binary (snd (run c s)) /\
  forall fd, is_targeted_fd fd (snd (run c s)) = 0 \/
             is_targeted_fd fd (snd (run c s)) = 1.
Proof.
  intros Hs Hb.
  assert (Hb1 : registry_binary (snd (init_config s))).
  { unfold registry_binary, init_config.
    destruct (g_initialized s); [exact Hb|]. cbn.
    apply Forall_replicate. now left. }
  assert (Hb' : registry_binary (snd (run c s))).
  { unfold registry_binary in *.
    destruct (run_registry_shape c s) as [-> | (fd & v & _ & _ & Hv & ->)];
      [exact Hb1|].
    apply Forall_insert; assumption. }
  split; [now apply run_registry_sized|]. split; [exact Hb'|].
  intros fd. unfold is_targeted_fd.
  destruct ((fd <? 0) || (fd >=? MAX_TRACKED_FDS)); [now left|].
  destruct (g_targeted_fds (snd (run c s)) !! Z.to_nat fd) as [v|] eqn:E;
    [|now left].
  cbn. unfold registry_binary in Hb'. rewrite Forall_lookup in Hb'.
  exact (Hb' _ _ E).
Qed.


(** ** Logging *)






















(** ** Rates in order *)

Ltac compare_cases :=
  change (Pos.compare_cont Eq) with Pos.compare;
  repeat match goal with
         | |- context [Z.compare ?x ?y] => destruct (Z.compare_spec x y)
         | |- context [Pos.compare ?x ?y] => destruct (Pos.compare_spec x y)
         end;
  cbn; intros; subst; try reflexivity; try discriminate; try lia.

Ltac float_cases a b c :=
  unfold Double.leb, Double.ltb, SFleb, SFltb, SFcompare;
  destruct a as [[|] | [|] | | [|] ? ?], b as [[|] | [|] | | [|] ? ?],
           c as [[|] | [|] | | [|] ? ?];
  try (intros; reflexivity); try (intros; discriminate);
  compare_cases.

Lemma leb_trans (a b c : spec_float) :
  Double.leb a b = true -> Double.leb b c = true -> Double.leb a c = true.
Proof. float_cases a b c. Qed.

Lemma ltb_leb_trans (a b c : spec_float) :
  Double.ltb a b = true -> Double.leb b c = true -> Double.ltb a c = true.
Proof. float_cases a b c. Qed.

(** X22.  Raising a rate never takes an injection away: for the same
    state of the random source, if [should_inject] answers true at a rate
    it answers true at every rate that is at least as large. *)
Theorem should_inject_monotone (r1 r2 : spec_float) (s : state) :
  Double.leb r1 r2 = true ->
  fst (should_inject r1 s) = true ->
  fst (should_inject r2 s) = true.
Proof.
  intros Hle. unfold should_inject.
  destruct (Double.leb r1 Double.zero) eqn:Z1; [cbn; discriminate|].
  destruct (Double.leb r2 Double.zero) eqn:Z2.
  { rewrite (leb_trans r1 r2 Double.zero Hle Z2) in Z1. discriminate. }
  destruct (Double.leb Double.one r1) eqn:O1.
  { rewrite (leb_trans Double.one r1 r2 O1 Hle). reflexivity. }
  destruct (Double.leb Double.one r2) eqn:O2; [reflexivity|].
  destruct (rand (rand_state s)) as [r g]. cbn [fst].
  intros Hlt. exact (ltb_leb_trans _ r1 r2 Hlt Hle).
Qed.

(** ** Certain failures *)

(** X17.  A connect rate of 1 (or more): with injection enabled and the
    real connect resolved, every connect to a matching address fails after
    the latency with [-1] and the configured [errno], is counted once, and
    never reaches the real connect; the descriptor is marked all the
    same. *)
Theorem connect_certain_failure (s : state) (sockfd : Z) (addr : sockaddr) (addrlen : Z) :
  let s1 := snd (init_config s) in
  g_enabled (cfg s1) = true ->
  real_connect (fns s1) <> None ->
  matches_target addr s1 = true ->
  Double.leb Double.one (g_connect_fail_rate (cfg s1)) = true ->
  let out := connect sockfd addr addrlen s in
  fst out = -1 /\
  errno (proc (snd out)) = g_connect_errno (cfg s1) /\
  real_calls (new_events s1 (snd out)) = [] /\
  stat (snd out) = incr_connect_injected (stat s1) /\
  rand_state (snd out) = rand_state s1 /\
  os (proc (snd out)) = os (proc (snd (add_latency s1))) /\
  g_targeted_fds (snd out) = g_targeted_fds (snd (mark_targeted_fd sockfd s1)).
Proof.
  intros s1 Hen Hreal Hm Hrate out. subst out s1. unfold real_calls.
  after_init s.
  destruct (real_connect (fns s1)) as [f|]; [|congruence].
  rewrite Hen. cbn. rewrite Hm.
  pose proof (leb_zero_not_leb_one (g_connect_fail_rate (cfg s1))) as Hz.
  destruct (Double.leb (g_connect_fail_rate (cfg s1)) Double.zero) eqn:E0;
    [specialize (Hz eq_refl); congruence|].
  wrappers. rewrite ?E0, ?Hrate. paths;
    rewrite ?E0, ?Hrate in *; try discriminate;
    repeat split; try reflexivity; events; reflexivity.
Qed.

(** X18.  An open rate of 1 (or more): with injection enabled and the
    real open resolved, every open fails at once with [-1] and the
    configured [errno], whatever the path; the real open is not called,
    the process is otherwise untouched, and no counter records it. *)
Theorem open_certain_failure (s : state) (pathname : string) (flags va : Z) :
  let s1 := snd (init_config s) in
  g_enabled (cfg s1) = true ->
  real_open (fns s1) <> None ->
  Double.leb Double.one (g_open_fail_rate (cfg s1)) = true ->
  let out := open pathname flags va s in
  fst out = -1 /\
  proc (snd out) = set_errno (g_open_errno (cfg s1)) (proc s1) /\
  real_calls (new_events s1 (snd out)) = [] /\
  stat (snd out) = stat s1 /\
  rand_state (snd out) = rand_state s1 /\
  g_targeted_fds (snd out) = g_targeted_fds s1.
Proof.
  intros s1 Hen Hreal Hrate out. subst out s1. unfold real_calls.
  after_init s.
  destruct (real_open (fns s1)) as [f|]; [|congruence].
  rewrite Hen. cbn.
  pose proof (leb_zero_not_leb_one (g_open_fail_rate (cfg s1))) as Hz.
  destruct (Double.leb (g_open_fail_rate (cfg s1)) Double.zero) eqn:E0;
    [specialize (Hz eq_refl); congruence|].
  wrappers. rewrite ?E0, ?Hrate. paths;
    repeat split; try reflexivity; events; reflexivity.
Qed.

(** X19.  A connect to an address that does not match the port filter
    (another port as much as another family) is never injected: the
    registry and the counters stay as they are, the random source is not
    consulted, nothing is logged, and the real connect is called after the
    latency and its result returned. *)
Theorem connect_non_matching (s : state) (sockfd : Z) (addr : sockaddr) (addrlen : Z) :
  let s1 := snd (init_config s) in
  g_enabled (cfg s1) = true ->
  matches_target addr s1 = false ->
  let out := connect sockfd addr addrlen s in
  let s2 := snd (add_latency s1) in
  g_targeted_fds (snd out) = g_targeted_fds s1 /\
  stat (snd out) = stat s1 /\
  rand_state (snd out) = rand_state s1 /\
  List.filter is_log (new_events s1 (snd out)) = [] /\
  match real_connect (fns s1) with
  | Some f =>
      (fst out, proc (snd out)) = f sockfd addr addrlen (proc s2) /\
      trace (snd out) = trace s2 ++ [Real (SysConnect sockfd addr addrlen) (fst out)]
  | None => out = (-1, s1)
  end.
Proof.
  intros s1 Hen Hm out s2. subst out s2 s1. after_init s.
  destruct (real_connect (fns s1)) as [f|].
  - rewrite Hen. cbn. rewrite Hm. cbn.
    unfold add_latency, invoke.
    destruct (g_latency_ms (cfg s1) >? 0); cbn;
      match goal with
      | |- context [f sockfd addr addrlen ?p] => destruct (f sockfd addr addrlen p)
      end; cbn; repeat split; try reflexivity; events; reflexivity.
  - cbn. repeat split; try reflexivity. events. reflexivity.
Qed.

(** ** Operations in sequence *)

Lemma send_certain_failure (s : state) (sockfd buf len flags : Z) :
  g_initialized s = true ->
  g_enabled (cfg s) = true ->
  real_send (fns s) <> None ->
  is_targeted_fd sockfd s <> 0 \/ g_target_port (cfg s) = 0 ->
  Double.leb Double.one (g_send_fail_rate (cfg s)) = true ->
  let out := send sockfd buf len flags s in
  fst out = -1 /\
  errno (proc (snd out)) = g_send_errno (cfg s) /\
  real_calls (new_events s (snd out)) = [] /\
  stat (snd out) = incr_send_injected (stat s).
Proof.
  intros Hi Hen Hreal Hgate Hrate out. subst out. unfold real_calls.
  unfold send, Bind, gets, Return. rewrite (init_config_done s Hi).
  destruct (real_send (fns s)) as [f|]; [|congruence].
  rewrite Hen. cbn [negb]. rewrite (not_bypassed _ _ Hgate).
  pose proof (leb_zero_not_leb_one (g_send_fail_rate (cfg s))) as Hz.
  destruct (Double.leb (g_send_fail_rate (cfg s)) Double.zero) eqn:E0;
    [specialize (Hz eq_refl); congruence|].
  wrappers. rewrite ?E0, ?Hrate. paths;
    rewrite ?E0, ?Hrate in *; try discriminate;
    repeat split; try reflexivity; events; reflexivity.
Qed.

Lemma write_certain_failure (s : state) (fd buf count : Z) :
  g_initialized s = true ->
  g_enabled (cfg s) = true ->
  real_write (fns s) <> None ->
  2 < fd ->
  is_targeted_fd fd s <> 0 ->
  Double.leb Double.one (g_send_fail_rate (cfg s)) = true ->
  let out := write fd buf count s in
  fst out = -1 /\
  errno (proc (snd out)) = g_send_errno (cfg s) /\
  real_calls (new_events s (snd out)) = [] /\
  stat (snd out) = incr_send_injected (stat s).
Proof.
  intros Hi Hen Hreal Hfd Ht Hrate out. subst out. unfold real_calls.
  unfold write, Bind, gets, Return. rewrite (init_config_done s Hi).
  destruct (real_write (fns s)) as [f|]; [|congruence].
  rewrite Hen. cbn [negb].
  replace (fd >? 2) with true by lia.
  replace (is_targeted_fd fd s =? 0) with false by lia. cbn [andb negb].
  pose proof (leb_zero_not_leb_one (g_send_fail_rate (cfg s))) as Hz.
  destruct (Double.leb (g_send_fail_rate (cfg s)) Double.zero) eqn:E0;
    [specialize (Hz eq_refl); congruence|].
  wrappers. rewrite ?E0, ?Hrate. paths;
    rewrite ?E0, ?Hrate in *; try discriminate;
    repeat split; try reflexivity; events; reflexivity.
Qed.

(** X20.  A marked descriptor stays eligible.  After a connect to a
    matching address on a descriptor above 2 and inside the registry,
    whether that connect was injected-failed, failed or succeeded, a send
    and a write on the descriptor at send rate 1 are both injected: [-1],
    the configured [errno], one more send injection counted, no real
    call. *)
Theorem marked_fd_stays_eligible (s : state) (fd : Z) (addr : sockaddr)
    (addrlen buf len flags : Z) :
  let s1 := snd (init_config s) in
  g_enabled (cfg s1) = true ->
  real_connect (fns s1) <> None ->
  real_send (fns s1) <> None ->
  real_write (fns s1) <> None ->
  matches_target addr s1 = true ->
  registry_sized s ->
  2 < fd < MAX_TRACKED_FDS ->
  Double.leb Double.one (g_send_fail_rate (cfg s1)) = true ->
  let s2 := snd (connect fd addr addrlen s) in
  let failed (out : Z * state) :=
    fst out = -1 /\
    errno (proc (snd out)) = g_send_errno (cfg s1) /\
    real_calls (new_events s2 (snd out)) = [] /\
    stat (snd out) = incr_send_injected (stat s2) in
  failed (send fd buf len flags s2) /\ failed (write fd buf len s2).
Proof.
  intros s1 Hen Hrc Hrs Hrw Hm Hsz Hfd Hrate s2 failed. subst failed.
  destruct (run_config (Connect fd addr addrlen) s) as (Hc & Hf & Hi).
  cbn [run] in Hc, Hf, Hi. fold s1 s2 in Hc, Hf, Hi.
  assert (Ht : is_targeted_fd fd s2 = 1).
  { rewrite (is_targeted_fd_ext fd s2 (snd (mark_targeted_fd fd s1))).
    - apply mark_targeted; [now apply init_config_sized | lia].
    - now apply connect_registry. }
  rewrite <- Hc. split.
  - apply send_certain_failure; rewrite ?Hc, ?Hf; auto;
      try (left; rewrite Ht; discriminate).
  - apply write_certain_failure; rewrite ?Hc, ?Hf; auto; try lia;
      try (rewrite Ht; discriminate).
Qed.

Lemma passthrough_when_unmarked (s : state) (fd buf len : Z) :
  g_initialized s = true ->
  g_enabled (cfg s) = true ->
  is_targeted_fd fd s = 0 ->
  (forall flags, g_target_port (cfg s) <> 0 ->
     passthrough (Send fd buf len flags) s (send fd buf len flags s) /\
     passthrough (Recv fd buf len flags) s (recv fd buf len flags s)) /\
  passthrough (Write fd buf len) s (write fd buf len s) /\
  passthrough (Read fd buf len) s (read fd buf len s).
Proof.
  intros Hi Hen Hfd. unfold passthrough.
  unfold send, recv, write, read, Bind, gets, Return.
  rewrite (init_config_done s Hi). cbn [resolved forwarded fst snd].
  split; [intros flags Hport; split | split].
  - destruct (real_send (fns s)) as [f|]; cbn [option_map].
    + rewrite Hen. cbn. rewrite Hfd.
      replace (g_target_port (cfg s) =? 0) with false by lia. cbn.
      unfold invoke. destruct (f fd buf len flags (proc s)); cbn.
      repeat split; reflexivity.
    + cbn. repeat split; reflexivity.
  - destruct (real_recv (fns s)) as [f|]; cbn [option_map].
    + rewrite Hen. cbn. rewrite Hfd.
      replace (g_target_port (cfg s) =? 0) with false by lia. cbn.
      unfold invoke. destruct (f fd buf len flags (proc s)); cbn.
      repeat split; reflexivity.
    + cbn. repeat split; reflexivity.
  - destruct (real_write (fns s)) as [f|]; cbn [option_map].
    + rewrite Hen. cbn. rewrite Hfd. cbn. rewrite andb_false_r.
      unfold invoke. destruct (f fd buf len (proc s)); cbn.
      repeat split; reflexivity.
    + cbn. repeat split; reflexivity.
  - destruct (real_read (fns s)) as [f|]; cbn [option_map].
    + rewrite Hen. cbn. rewrite Hfd. cbn. rewrite andb_false_r.
      unfold invoke. destruct (f fd buf len (proc s)) eqn:Ef; cbn.
      assert (Ht : is_targeted_fd fd (emit (Real (SysRead fd buf len) z) (with_proc p s))
                   = is_targeted_fd fd s) by reflexivity.
      rewrite Ht, Hfd. cbn. rewrite andb_false_r. repeat split; reflexivity.
    + cbn. repeat split; reflexivity.
Qed.

(** X21.  A closed descriptor is out of reach.  After [close], with
    injection enabled, write and read on that descriptor only forward,
    and so do send and recv when a port filter is configured, at any
    rate, until a matching connect marks the descriptor again. *)
Theorem closed_fd_is_bypassed (s : state) (fd buf len : Z) :
  let s1 := snd (init_config s) in
  g_enabled (cfg s1) = true ->
  let s2 := snd (close fd s) in
  (forall flags, g_target_port (cfg s1) <> 0 ->
     passthrough (Send fd buf len flags) s2 (send fd buf len flags s2) /\
     passthrough (Recv fd buf len flags) s2 (recv fd buf len flags s2)) /\
  passthrough (Write fd buf len) s2 (write fd buf len s2) /\
  passthrough (Read fd buf len) s2 (read fd buf len s2).
Proof.
  intros s1 Hen s2.
  destruct (run_config (Close fd) s) as (Hc & _ & Hi).
  cbn [run] in Hc, Hi. fold s1 s2 in Hc, Hi.
  rewrite <- Hc in *.
  apply passthrough_when_unmarked; auto.
  apply close_unmarks.
Qed.

(** X23.  The configuration is written once: from an initialised state no
    operation assigns the configuration or the resolved pointers again,
    and the state stays initialised, so a later change of the environment
    has no effect. *)
Theorem configuration_written_once (c : call) (s : state) :
  g_initialized s = true ->
  cfg (snd (run c s)) = cfg s /\
  fns (snd (run c s)) = fns s /\
  g_initialized (snd (run c s)) = true.
Proof.
  intros Hi. destruct (run_config c s) as (H1 & H2 & H3).
  rewrite (init_config_done s Hi) in H1, H2. auto.
Qed.

(** X24.  Descriptors the registry cannot hold escape injection: for a
    descriptor that is negative or at least [MAX_TRACKED_FDS], with
    injection enabled, write and read only forward, and so do send and
    recv under a port filter, at any rate and whatever was connected
    before. *)
Theorem untracked_fd_never_injected (s : state) (fd buf len : Z) :
  let s1 := snd (init_config s) in
  g_enabled (cfg s1) = true ->
  ~ 0 <= fd < MAX_TRACKED_FDS ->
  (forall flags, g_target_port (cfg s1) <> 0 ->
     passthrough (Send fd buf len flags) s1 (send fd buf len flags s) /\
     passthrough (Recv fd buf len flags) s1 (recv fd buf len flags s)) /\
  passthrough (Write fd buf len) s1 (write fd buf len s) /\
  passthrough (Read fd buf len) s1 (read fd buf len s).
Proof.
  intros s1 Hen Hfd.
  assert (Ht : is_targeted_fd fd s1 = 0).
  { unfold is_targeted_fd.
    destruct (fd_out fd Hfd) as [-> | ->]; [reflexivity|].
    now rewrite orb_true_r. }
  pose proof (passthrough_when_unmarked s1 fd buf len
                (init_config_initialized s) Hen Ht) as (K1 & K2 & K3).
  pose proof (fun flags => run_from_initialised (Send fd buf len flags) s) as E1.
  pose proof (fun flags => run_from_initialised (Recv fd buf len flags) s) as E2.
  pose proof (run_from_initialised (Write fd buf len) s) as E3.
  pose proof (run_from_initialised (Read fd buf len) s) as E4.
  cbn [run] in E1, E2, E3, E4. fold s1 in E1, E2, E3, E4.
  rewrite E3, E4. split; [|split; assumption].
  intros flags Hport. rewrite E1, E2. exact (K1 flags Hport).
Qed.


End Properties.

(** ** The properties on the small platform *)

Example stats_line_format :
  stats_line {| g_stat_connect_injected := 3; g_stat_send_injected := 0;
                g_stat_recv_injected := 12; g_stat_short_reads := 7 |}
  = ("[STATS] connect_injected=3 send_injected=0 recv_injected=12 short_reads=7"
       ++ nl)%string.
Proof. reflexivity. Qed.

(** At rate 0.5 the answer of [should_inject] does depend on the draw. *)
Example should_inject_half_depends :
  fst (should_inject Demo.half (with_rand (1 : @rng (Demo.platform _)) Demo.s_short)) = false /\
  fst (should_inject Demo.half (with_rand (2 : @rng (Demo.platform _)) Demo.s_short)) = true.
Proof. split; vm_compute; reflexivity. Qed.



(** Port filter 80, connect rate 1.0: the injected-failed connect to port
    80 still marks descriptor 5. *)
Lemma connect_marks_tracked_fd_witness :
  g_enabled (cfg (snd (init_config Demo.s_port_80))) = true /\
  real_connect (fns (snd (init_config Demo.s_port_80))) <> None /\
  matches_target Demo.addr_80 (snd (init_config Demo.s_port_80)) = true /\
  registry_sized Demo.s_port_80 /\
  fst (connect 5 Demo.addr_80 16 Demo.s_port_80) = -1 /\
  is_targeted_fd 5 (snd (connect 5 Demo.addr_80 16 Demo.s_port_80)) = 1.
Proof.
  assert (H1 : g_enabled (cfg (snd (init_config Demo.s_port_80))) = true)
    by (vm_compute; reflexivity).
  assert (H2 : real_connect (fns (snd (init_config Demo.s_port_80))) <> None)
    by (vm_compute; discriminate).
  assert (H3 : matches_target Demo.addr_80 (snd (init_config Demo.s_port_80)) = true)
    by (vm_compute; reflexivity).
  assert (H4 : registry_sized Demo.s_port_80)
    by (vm_compute; reflexivity).
  pose proof (connect_marks_tracked_fd Demo.s_port_80 5 Demo.addr_80 16 H1 H2 H3 H4)
    as (_ & K & _).
  repeat (split; [assumption|]).
  split; [vm_compute; reflexivity|].
  apply K. unfold MAX_TRACKED_FDS. lia.
Defined.

(** C2 as stated fails for a descriptor beyond the registry: the
    target-matching connect on descriptor 5000 leaves it unmarked. *)
Lemma connect_fd_5000_not_marked :
  g_enabled (cfg (snd (init_config Demo.s_port_80))) = true /\
  matches_target Demo.addr_80 (snd (init_config Demo.s_port_80)) = true /\
  fst (connect 5000 Demo.addr_80 16 Demo.s_port_80) = -1 /\
  is_targeted_fd 5000 (snd (connect 5000 Demo.addr_80 16 Demo.s_port_80)) = 0.
Proof. repeat split; vm_compute; reflexivity. Qed.

(** Port filter 80 and rates 1.0: send and recv on the unmarked descriptor
    9 are forwarded. *)
Lemma untargeted_fd_bypass_witness :
  g_enabled (cfg (snd (init_config Demo.s_port_80))) = true /\
  g_target_port (cfg (snd (init_config Demo.s_port_80))) <> 0 /\
  is_targeted_fd 9 (snd (init_config Demo.s_port_80)) = 0 /\
  fst (send 9 1000 64 0 Demo.s_port_80) = 64 /\
  fst (recv 9 1000 64 0 Demo.s_port_80) = 10.
Proof.
  assert (H1 : g_enabled (cfg (snd (init_config Demo.s_port_80))) = true)
    by (vm_compute; reflexivity).
  assert (H2 : g_target_port (cfg (snd (init_config Demo.s_port_80))) <> 0)
    by (vm_compute; discriminate).
  assert (H3 : is_targeted_fd 9 (snd (init_config Demo.s_port_80)) = 0)
    by (vm_compute; reflexivity).
  pose proof (untargeted_fd_bypass Demo.s_port_80 9 1000 64 0 H1 H2 H3)
    as [(_ & _ & _ & _ & Ks) (_ & _ & _ & _ & Kr)].
  repeat (split; [assumption|]).
  split.
  - exact (f_equal fst (proj1 Ks)).
  - exact (f_equal fst (proj1 Kr)).
Defined.

(** No port filter, short-read rate 1.0: the fail decision does not
    trigger, the real recv is called once and returns 10, and the short
    length 5 is reported. *)
Lemma recv_two_decisions_witness :
  g_enabled (cfg (snd (init_config Demo.s_short))) = true /\
  real_recv (fns (snd (init_config Demo.s_short))) = Some Demo.recv_ten /\
  (is_targeted_fd 5 (snd (init_config Demo.s_short)) <> 0 \/
   g_target_port (cfg (snd (init_config Demo.s_short))) = 0) /\
  (length (real_calls (new_events (snd (init_config Demo.s_short))
                         (snd (recv 5 1000 100 0 Demo.s_short)))) <= 1)%nat /\
  fst (recv 5 1000 100 0 Demo.s_short) = 5.
Proof.
  assert (H1 : g_enabled (cfg (snd (init_config Demo.s_short))) = true)
    by (vm_compute; reflexivity).
  assert (H2 : real_recv (fns (snd (init_config Demo.s_short))) = Some Demo.recv_ten)
    by reflexivity.
  assert (H3 : is_targeted_fd 5 (snd (init_config Demo.s_short)) <> 0 \/
               g_target_port (cfg (snd (init_config Demo.s_short))) = 0)
    by (right; vm_compute; reflexivity).
  pose proof (recv_two_decisions Demo.s_short 5 1000 100 0 Demo.recv_ten H1 H2 H3)
    as [K _].
  repeat (split; [assumption|]).
  vm_compute. reflexivity.
Defined.

Lemma should_inject_extremes_witness :
  Double.leb Double.zero Double.zero = true /\
  Double.leb Double.one Double.one = true /\
  should_inject Double.zero Demo.s_short = (false, Demo.s_short) /\
  should_inject Double.one Demo.s_short = (true, Demo.s_short).
Proof.
  split; [reflexivity|]. split; [reflexivity|]. split.
  - exact (proj1 (should_inject_extremes Double.zero) eq_refl Demo.s_short).
  - exact (proj1 (proj2 (should_inject_extremes Double.one)) eq_refl Demo.s_short).
Defined.

(** Short-read rate 1.0, real length 10: the reported length is within
    [[1, 5]]. *)
Lemma short_read_length_range_witness :
  g_stat_short_reads (stat (snd (recv 5 1000 100 0 Demo.s_short)))
  <> g_stat_short_reads (stat (snd (init_config Demo.s_short))) /\
  exists n,
    In (Real (SysRecv 5 1000 100 0) n)
       (new_events (snd (init_config Demo.s_short))
                   (snd (recv 5 1000 100 0 Demo.s_short))) /\
    1 < n /\
    (n <= C.SSIZE_MAX ->
     1 <= fst (recv 5 1000 100 0 Demo.s_short) <= (n + 1) / 2 /\
     fst (recv 5 1000 100 0 Demo.s_short) <= n).
Proof.
  assert (H : g_stat_short_reads (stat (snd (recv 5 1000 100 0 Demo.s_short)))
              <> g_stat_short_reads (stat (snd (init_config Demo.s_short))))
    by (vm_compute; discriminate).
  split; [exact H|].
  exact (proj1 (short_read_length_range Demo.s_short) 5 1000 100 0 H).
Defined.

(** The same call: the ten bytes the real recv stored are all in the
    buffer although 5 is reported. *)
Lemma short_read_keeps_buffer_witness :
  real_recv (fns (snd (init_config Demo.s_short))) = Some Demo.recv_ten /\
  g_stat_short_reads (stat (snd (recv 5 1000 100 0 Demo.s_short)))
  <> g_stat_short_reads (stat (snd (init_config Demo.s_short))) /\
  fst (recv 5 1000 100 0 Demo.s_short) = 5 /\
  forall a, 1000 <= a < 1000 + 10 ->
    memory (proc (snd (recv 5 1000 100 0 Demo.s_short))) a = 65.
Proof.
  assert (H1 : real_recv (fns (snd (init_config Demo.s_short))) = Some Demo.recv_ten)
    by reflexivity.
  assert (H2 : g_stat_short_reads (stat (snd (recv 5 1000 100 0 Demo.s_short)))
               <> g_stat_short_reads (stat (snd (init_config Demo.s_short))))
    by (vm_compute; discriminate).
  pose proof (proj1 (short_read_keeps_buffer Demo.s_short) 5 1000 100 0
                Demo.recv_ten H1 H2) as (_ & _ & K).
  repeat (split; [assumption|]).
  split; [vm_compute; reflexivity|].
  intros a Ha. rewrite (K a Ha).
  cbn. replace ((1000 <=? a) && (a <? 1000 + 10)) with true by lia. reflexivity.
Defined.

(** The same through [read], on the descriptor a connect has marked. *)
Example read_short_on_connected_fd :
  fst (read 5 1000 100 Demo.s_short_connected) = 5 /\
  real_calls (new_events Demo.s_short_connected
                (snd (read 5 1000 100 Demo.s_short_connected)))
  = [Real (SysRead 5 1000 100) 10] /\
  map (memory (proc (snd (read 5 1000 100 Demo.s_short_connected))))
      [999; 1000; 1004; 1005; 1009; 1010]
  = [0; 65; 65; 65; 65; 0].
Proof. repeat split; vm_compute; reflexivity. Qed.

(** Enabled with a log file: after one short read, teardown writes the
    [[STATS]] line and closes the sink. *)
Lemma print_stats_when_enabled_witness :
  g_log_file (cfg (snd (recv 5 1000 100 0 Demo.s_short))) = Some 3 /\
  g_enabled (cfg (snd (recv 5 1000 100 0 Demo.s_short))) = true /\
  new_events (snd (recv 5 1000 100 0 Demo.s_short))
             (snd (print_stats (snd (recv 5 1000 100 0 Demo.s_short))))
  = [Fprintf 3 ("[STATS] connect_injected=0 send_injected=0 recv_injected=0 short_reads=1" ++ nl)%string;
     Fclose 3].
Proof.
  assert (H1 : g_log_file (cfg (snd (recv 5 1000 100 0 Demo.s_short))) = Some 3)
    by (vm_compute; reflexivity).
  assert (H2 : g_enabled (cfg (snd (recv 5 1000 100 0 Demo.s_short))) = true)
    by (vm_compute; reflexivity).
  repeat (split; [assumption|]).
  refine (eq_trans (proj1 (print_stats_when_enabled _ 3 H1) H2) _).
  vm_compute. reflexivity.
Defined.

(** C8 as stated fails when only the log file is configured: the sink is
    open after initialisation, the enabled flag is clear, and teardown
    writes nothing. *)
Lemma print_stats_disabled_writes_nothing :
  g_log_file (cfg (snd (init_config Demo.s_log_only))) = Some 3 /\
  g_enabled (cfg (snd (init_config Demo.s_log_only))) = false /\
  trace (snd (print_stats (snd (init_config Demo.s_log_only)))) = [].
Proof. repeat split; vm_compute; reflexivity. Qed.

(** Port filter 80, connect rate 1.0: the connect to a UNIX-domain address
    is not injected and reaches the real connect. *)
Lemma connect_other_family_witness :
  g_enabled (cfg (snd (init_config Demo.s_port_80))) = true /\
  g_target_port (cfg (snd (init_config Demo.s_port_80))) <> 0 /\
  sa_family Demo.addr_unix <> AF_INET /\
  sa_family Demo.addr_unix <> AF_INET6 /\
  matches_target Demo.addr_unix (snd (init_config Demo.s_port_80)) = false /\
  g_targeted_fds (snd (connect 5 Demo.addr_unix 16 Demo.s_port_80))
  = g_targeted_fds (snd (init_config Demo.s_port_80)) /\
  fst (connect 5 Demo.addr_unix 16 Demo.s_port_80) = 0.
Proof.
  assert (H1 : g_enabled (cfg (snd (init_config Demo.s_port_80))) = true)
    by (vm_compute; reflexivity).
  assert (H2 : g_target_port (cfg (snd (init_config Demo.s_port_80))) <> 0)
    by (vm_compute; discriminate).
  assert (H3 : sa_family Demo.addr_unix <> AF_INET) by (vm_compute; discriminate).
  assert (H4 : sa_family Demo.addr_unix <> AF_INET6) by (vm_compute; discriminate).
  pose proof (connect_other_family Demo.s_port_80 5 Demo.addr_unix 16 H1 H2 H3 H4)
    as (K1 & K2 & _).
  repeat (split; [assumption|]).
  vm_compute. reflexivity.
Defined.

(** ** The further properties on the small platform *)

Lemma errno_name_parses_back_witness :
  errno_name ECONNREFUSED <> "?"%string /\
  @parse_errno (Demo.platform Demo.env_none) (Some (errno_name ECONNREFUSED))
  = ECONNREFUSED.
Proof.
  assert (H : errno_name ECONNREFUSED <> "?"%string) by (vm_compute; discriminate).
  exact (conj H (proj1 (@errno_name_parses_back (Demo.platform Demo.env_none)
                          ECONNREFUSED) H)).
Defined.

(** [FAULT_TARGET_PORT=70000]: not even the address of port 80 matches. *)
Lemma port_filter_out_of_range_witness :
  (g_target_port (cfg (snd (init_config Demo.s_port_70000))) < 0 \/
   65535 < g_target_port (cfg (snd (init_config Demo.s_port_70000)))) /\
  matches_target Demo.addr_80 (snd (init_config Demo.s_port_70000)) = false.
Proof.
  assert (H : g_target_port (cfg (snd (init_config Demo.s_port_70000))) < 0 \/
              65535 < g_target_port (cfg (snd (init_config Demo.s_port_70000))))
    by (right; vm_compute; reflexivity).
  exact (conj H (port_filter_out_of_range _ Demo.addr_80 H)).
Defined.

(** [FAULT_LATENCY_MS=1500] sleeps one second and a half. *)
Lemma add_latency_timespec_witness :
  0 < g_latency_ms (cfg (snd (init_config Demo.s_latency_only))) /\
  new_events (snd (init_config Demo.s_latency_only))
             (snd (add_latency (snd (init_config Demo.s_latency_only))))
  = [Nanosleep 1 500000000].
Proof.
  assert (H : 0 < g_latency_ms (cfg (snd (init_config Demo.s_latency_only))))
    by (vm_compute; reflexivity).
  split; [exact H|].
  destruct (proj2 (add_latency_timespec (snd (init_config Demo.s_latency_only))) H)
    as (tv_sec & tv_nsec & K & _).
  vm_compute. reflexivity.
Defined.

Lemma init_config_defaults_witness :
  (forall key, @getenv (Demo.platform Demo.env_none) key = None) /\
  cfg (snd (init_config Demo.s_none)) = initial_config /\
  trace (snd (init_config Demo.s_none)) = [].
Proof.
  assert (H : forall key, @getenv (Demo.platform Demo.env_none) key = None)
    by (intros key; reflexivity).
  destruct (@init_config_defaults (Demo.platform Demo.env_none) 1 Demo.boot H)
    as (K1 & _ & _ & _ & _ & _ & _ & _ & K2).
  exact (conj H (conj K1 K2)).
Defined.

Lemma enabled_spellings_witness :
  g_initialized Demo.s_latency_only = false /\
  g_enabled (cfg (snd (init_config Demo.s_latency_only))) = true.
Proof.
  assert (H : g_initialized Demo.s_latency_only = false) by reflexivity.
  split; [exact H|].
  apply (proj2 (enabled_spellings Demo.s_latency_only H)).
  right. reflexivity.
Defined.

Lemma init_block_lines_witness :
  g_initialized Demo.s_short = false /\
  length (new_events Demo.s_short (snd (init_config Demo.s_short))) = 4%nat.
Proof.
  assert (H : g_initialized Demo.s_short = false) by reflexivity.
  split; [exact H|].
  exact (proj2 (init_block_lines Demo.s_short H)).
Defined.

(** Enabled at rate 1.0 but nothing resolved: send returns [-1] and
    [errno] keeps its 0. *)
Lemma unresolved_returns_minus_one_witness :
  resolved (Send 5 1000 64 0) (fns (snd (init_config Demo.s_unresolved))) = None /\
  fst (send 5 1000 64 0 Demo.s_unresolved) = -1 /\
  errno (proc (snd (send 5 1000 64 0 Demo.s_unresolved))) = 0.
Proof.
  assert (H : resolved (Send 5 1000 64 0) (fns (snd (init_config Demo.s_unresolved)))
              = None) by reflexivity.
  pose proof (unresolved_returns_minus_one (Send 5 1000 64 0) Demo.s_unresolved H) as K.
  split; [exact H|]. split.
  - exact (f_equal fst K).
  - exact (f_equal (fun o => errno (proc (snd o))) K).
Defined.

Lemma injected_failure_skips_real_witness :
  g_stat_connect_injected
    (stat (snd (run (Connect 5 Demo.addr_80 16) Demo.s_port_80)))
  <> g_stat_connect_injected (stat (snd (init_config Demo.s_port_80))) /\
  fst (run (Connect 5 Demo.addr_80 16) Demo.s_port_80) = -1 /\
  errno (proc (snd (run (Connect 5 Demo.addr_80 16) Demo.s_port_80))) = ETIMEDOUT.
Proof.
  assert (H : g_stat_connect_injected
                (stat (snd (run (Connect 5 Demo.addr_80 16) Demo.s_port_80)))
              <> g_stat_connect_injected (stat (snd (init_config Demo.s_port_80))))
    by (vm_compute; discriminate).
  destruct (proj1 (injected_failure_skips_real (Connect 5 Demo.addr_80 16)
                     Demo.s_port_80) H) as (K1 & _ & K3).
  split; [exact H|]. split; [exact K1|].
  refine (eq_trans K3 _). vm_compute. reflexivity.
Defined.

(** Rates 1.0 and descriptor 5 marked: a write to standard output is
    still forwarded. *)
Lemma write_read_gate_witness :
  g_enabled (cfg (snd (init_config Demo.s_port_80_connected))) = true /\
  (1 <= 2 \/ is_targeted_fd 1 (snd (init_config Demo.s_port_80_connected)) = 0) /\
  fst (write 1 1000 64 Demo.s_port_80_connected) = 64.
Proof.
  assert (H1 : g_enabled (cfg (snd (init_config Demo.s_port_80_connected))) = true)
    by (vm_compute; reflexivity).
  assert (H2 : 1 <= 2 \/
               is_targeted_fd 1 (snd (init_config Demo.s_port_80_connected)) = 0)
    by (left; lia).
  destruct (write_read_gate Demo.s_port_80_connected 1 1000 64 H1 H2)
    as [(_ & _ & _ & _ & K) _].
  exact (conj H1 (conj H2 (f_equal fst (proj1 K)))).
Defined.

Lemma zero_rates_never_inject_witness :
  rates_off (cfg (snd (init_config Demo.s_latency_only))) /\
  stat (snd (send 5 1000 64 0 Demo.s_latency_only))
  = stat (snd (init_config Demo.s_latency_only)) /\
  fst (send 5 1000 64 0 Demo.s_latency_only) = 64.
Proof.
  assert (H : rates_off (cfg (snd (init_config Demo.s_latency_only))))
    by (repeat split; reflexivity).
  destruct (zero_rates_never_inject (Send 5 1000 64 0) Demo.s_latency_only H)
    as (K & _).
  split; [exact H|]. split; [exact K|]. vm_compute. reflexivity.
Defined.

(** Closing descriptor 6 leaves descriptor 5 marked. *)
Lemma registry_isolation_witness :
  marks (Close 6) <> Some 5 /\
  is_targeted_fd 5 (snd (close 6 Demo.s_port_80_connected)) = 1.
Proof.
  assert (H : marks (Close 6) <> Some 5) by discriminate.
  split; [exact H|].
  refine (eq_trans (registry_isolation (Close 6) Demo.s_port_80_connected 5 H) _).
  vm_compute. reflexivity.
Defined.

Lemma registry_invariant_witness :
  registry_sized Demo.s_port_80 /\
  registry_binary Demo.s_port_80 /\
  registry_binary (snd (run (Connect 5 Demo.addr_80 16) Demo.s_port_80)).
Proof.
  assert (H1 : registry_sized Demo.s_port_80) by (vm_compute; reflexivity).
  assert (H2 : registry_binary Demo.s_port_80)
    by (apply Forall_replicate; now left).
  destruct (registry_invariant (Connect 5 Demo.addr_80 16) Demo.s_port_80 H1 H2)
    as (_ & K & _).
  exact (conj H1 (conj H2 K)).
Defined.


(** With the log on a full disk and [errno] cleared before the call, the
    short read returns the same 5 and the same ten bytes with and without
    the sink, but leaves the [ENOSPC] of the failed log write in [errno]
    only with it. *)
Example failed_log_write_leaves_errno :
  fst (recv 5 1000 100 0 (forget_errno Demo.s_full_disk)) = 5 /\
  fst (recv 5 1000 100 0 (strip_log (forget_errno Demo.s_full_disk))) = 5 /\
  errno (proc (snd (recv 5 1000 100 0 (forget_errno Demo.s_full_disk)))) = ENOSPC /\
  errno (proc (snd (recv 5 1000 100 0 (strip_log (forget_errno Demo.s_full_disk))))) = 0 /\
  map (memory (proc (snd (recv 5 1000 100 0 (forget_errno Demo.s_full_disk)))))
      [1000; 1005; 1009] = [65; 65; 65].
Proof. repeat split; vm_compute; reflexivity. Qed.

Lemma connect_certain_failure_witness :
  g_enabled (cfg (snd (init_config Demo.s_port_80))) = true /\
  real_connect (fns (snd (init_config Demo.s_port_80))) <> None /\
  matches_target Demo.addr_80 (snd (init_config Demo.s_port_80)) = true /\
  Double.leb Double.one
    (g_connect_fail_rate (cfg (snd (init_config Demo.s_port_80)))) = true /\
  fst (connect 5 Demo.addr_80 16 Demo.s_port_80) = -1 /\
  real_calls (new_events (snd (init_config Demo.s_port_80))
                (snd (connect 5 Demo.addr_80 16 Demo.s_port_80))) = [].
Proof.
  assert (H1 : g_enabled (cfg (snd (init_config Demo.s_port_80))) = true)
    by (vm_compute; reflexivity).
  assert (H2 : real_connect (fns (snd (init_config Demo.s_port_80))) <> None)
    by (vm_compute; discriminate).
  assert (H3 : matches_target Demo.addr_80 (snd (init_config Demo.s_port_80)) = true)
    by (vm_compute; reflexivity).
  assert (H4 : Double.leb Double.one
                 (g_connect_fail_rate (cfg (snd (init_config Demo.s_port_80)))) = true)
    by (vm_compute; reflexivity).
  destruct (connect_certain_failure Demo.s_port_80 5 Demo.addr_80 16 H1 H2 H3 H4)
    as (K1 & _ & K3 & _).
  exact (conj H1 (conj H2 (conj H3 (conj H4 (conj K1 K3))))).
Defined.

(** [FAULT_OPEN_FAIL_RATE=1.0], [FAULT_OPEN_ERRNO=ENOSPC]. *)
Lemma open_certain_failure_witness :
  g_enabled (cfg (snd (init_config Demo.s_open))) = true /\
  real_open (fns (snd (init_config Demo.s_open))) <> None /\
  Double.leb Double.one (g_open_fail_rate (cfg (snd (init_config Demo.s_open)))) = true /\
  fst (open "/etc/hosts" 0 0 Demo.s_open) = -1 /\
  errno (proc (snd (open "/etc/hosts" 0 0 Demo.s_open))) = ENOSPC.
Proof.
  assert (H1 : g_enabled (cfg (snd (init_config Demo.s_open))) = true)
    by (vm_compute; reflexivity).
  assert (H2 : real_open (fns (snd (init_config Demo.s_open))) <> None)
    by (vm_compute; discriminate).
  assert (H3 : Double.leb Double.one
                 (g_open_fail_rate (cfg (snd (init_config Demo.s_open)))) = true)
    by (vm_compute; reflexivity).
  destruct (open_certain_failure Demo.s_open "/etc/hosts" 0 0 H1 H2 H3)
    as (K1 & K2 & _).
  split; [exact H1|]. split; [exact H2|]. split; [exact H3|].
  split; [exact K1|]. rewrite K2. vm_compute. reflexivity.
Defined.

(** Port filter 80, connect rate 1.0: the connect to port 443 succeeds. *)
Lemma connect_non_matching_witness :
  g_enabled (cfg (snd (init_config Demo.s_port_80))) = true /\
  matches_target Demo.addr_443 (snd (init_config Demo.s_port_80)) = false /\
  fst (connect 5 Demo.addr_443 16 Demo.s_port_80) = 0 /\
  stat (snd (connect 5 Demo.addr_443 16 Demo.s_port_80))
  = stat (snd (init_config Demo.s_port_80)).
Proof.
  assert (H1 : g_enabled (cfg (snd (init_config Demo.s_port_80))) = true)
    by (vm_compute; reflexivity).
  assert (H2 : matches_target Demo.addr_443 (snd (init_config Demo.s_port_80)) = false)
    by (vm_compute; reflexivity).
  destruct (connect_non_matching Demo.s_port_80 5 Demo.addr_443 16 H1 H2)
    as (_ & K & _).
  split; [exact H1|]. split; [exact H2|]. split; [vm_compute; reflexivity | exact K].
Defined.

Lemma marked_fd_stays_eligible_witness :
  g_enabled (cfg (snd (init_config Demo.s_port_80))) = true /\
  real_connect (fns (snd (init_config Demo.s_port_80))) <> None /\
  real_send (fns (snd (init_config Demo.s_port_80))) <> None /\
  real_write (fns (snd (init_config Demo.s_port_80))) <> None /\
  matches_target Demo.addr_80 (snd (init_config Demo.s_port_80)) = true /\
  registry_sized Demo.s_port_80 /\
  2 < 5 < MAX_TRACKED_FDS /\
  Double.leb Double.one
    (g_send_fail_rate (cfg (snd (init_config Demo.s_port_80)))) = true /\
  fst (send 5 1000 64 0 (snd (connect 5 Demo.addr_80 16 Demo.s_port_80))) = -1 /\
  fst (write 5 1000 64 (snd (connect 5 Demo.addr_80 16 Demo.s_port_80))) = -1.
Proof.
  assert (H1 : g_enabled (cfg (snd (init_config Demo.s_port_80))) = true)
    by (vm_compute; reflexivity).
  assert (H2 : real_connect (fns (snd (init_config Demo.s_port_80))) <> None)
    by (vm_compute; discriminate).
  assert (H3 : real_send (fns (snd (init_config Demo.s_port_80))) <> None)
    by (vm_compute; discriminate).
  assert (H4 : real_write (fns (snd (init_config Demo.s_port_80))) <> None)
    by (vm_compute; discriminate).
  assert (H5 : matches_target Demo.addr_80 (snd (init_config Demo.s_port_80)) = true)
    by (vm_compute; reflexivity).
  assert (H6 : registry_sized Demo.s_port_80) by (vm_compute; reflexivity).
  assert (H7 : 2 < 5 < MAX_TRACKED_FDS) by (unfold MAX_TRACKED_FDS; lia).
  assert (H8 : Double.leb Double.one
                 (g_send_fail_rate (cfg (snd (init_config Demo.s_port_80)))) = true)
    by (vm_compute; reflexivity).
  destruct (marked_fd_stays_eligible Demo.s_port_80 5 Demo.addr_80 16 1000 64 0
              H1 H2 H3 H4 H5 H6 H7 H8) as [(K1 & _) (K2 & _)].
  repeat (split; [assumption|]). exact K2.
Defined.

(** After the close of the marked descriptor 5, with port filter 80 and
    send rate 1.0, send is forwarded again. *)
Lemma closed_fd_is_bypassed_witness :
  g_enabled (cfg (snd (init_config Demo.s_port_80_connected))) = true /\
  g_target_port (cfg (snd (init_config Demo.s_port_80_connected))) <> 0 /\
  is_targeted_fd 5 Demo.s_port_80_connected = 1 /\
  fst (send 5 1000 64 0 (snd (close 5 Demo.s_port_80_connected))) = 64.
Proof.
  assert (H1 : g_enabled (cfg (snd (init_config Demo.s_port_80_connected))) = true)
    by (vm_compute; reflexivity).
  assert (H2 : g_target_port (cfg (snd (init_config Demo.s_port_80_connected))) <> 0)
    by (vm_compute; discriminate).
  destruct (closed_fd_is_bypassed Demo.s_port_80_connected 5 1000 64 H1) as [K _].
  destruct (K 0 H2) as [(_ & _ & _ & _ & Ks) _].
  split; [exact H1|]. split; [exact H2|]. split; [vm_compute; reflexivity|].
  exact (f_equal fst (proj1 Ks)).
Defined.

Lemma should_inject_monotone_witness :
  Double.leb Demo.half Double.one = true /\
  fst (should_inject Demo.half (with_rand (2 : @rng (Demo.platform _)) Demo.s_short))
  = true /\
  fst (should_inject Double.one (with_rand (2 : @rng (Demo.platform _)) Demo.s_short))
  = true.
Proof.
  assert (H1 : Double.leb Demo.half Double.one = true) by reflexivity.
  assert (H2 : fst (should_inject Demo.half
                      (with_rand (2 : @rng (Demo.platform _)) Demo.s_short)) = true)
    by (vm_compute; reflexivity).
  exact (conj H1 (conj H2 (should_inject_monotone _ _ _ H1 H2))).
Defined.

Lemma configuration_written_once_witness :
  g_initialized Demo.s_port_80_ready = true /\
  cfg (snd (connect 5 Demo.addr_80 16 Demo.s_port_80_ready))
  = cfg Demo.s_port_80_ready.
Proof.
  assert (H : g_initialized Demo.s_port_80_ready = true) by reflexivity.
  exact (conj H (proj1 (configuration_written_once (Connect 5 Demo.addr_80 16)
                          Demo.s_port_80_ready H))).
Defined.

(** Send rate 1.0 and port filter 80: descriptor 5000 is out of reach. *)
Lemma untracked_fd_never_injected_witness :
  g_enabled (cfg (snd (init_config Demo.s_port_80))) = true /\
  ~ 0 <= 5000 < MAX_TRACKED_FDS /\
  fst (write 5000 1000 64 Demo.s_port_80) = 64.
Proof.
  assert (H1 : g_enabled (cfg (snd (init_config Demo.s_port_80))) = true)
    by (vm_compute; reflexivity).
  assert (H2 : ~ 0 <= 5000 < MAX_TRACKED_FDS) by (unfold MAX_TRACKED_FDS; lia).
  destruct (untracked_fd_never_injected Demo.s_port_80 5000 1000 64 H1 H2)
    as (_ & (_ & _ & _ & _ & K) & _).
  exact (conj H1 (conj H2 (f_equal fst (proj1 K)))).
Defined.
